(** * phone_numbers.py: normalisation of NANP phone numbers

    A shallow embedding of [src/phone_numbers.py] (class [PhoneNumber] and
    the function [read_numbers]) and the proofs of its specification.

    Python strings are sequences of Unicode code points; a code point is
    modelled as a number in [N], a string as a list of them.  Exceptions are
    modelled by an error monad whose errors record the exception class and
    the place that raises it. *)

From Stdlib Require Import String Ascii.
From Stdlib Require Import ZArith NArith List Bool Lia.
From Stdlib Require Import Sorted Permutation DecimalString.
From Stdlib Require DecimalPos DecimalZ.
Import ListNotations.

Local Open Scope N_scope.

(** ** Python strings *)

Definition char := N.
Definition str := list char.

(** [chr "A"] is the code point of the ASCII character [A]; [lit "abc"] is
    the Python string literal ['abc']. *)
Definition chr (a : ascii) : char := N_of_ascii a.
Definition lit (s : string) : str := List.map chr (list_ascii_of_string s).

Definition char_eqb (a b : char) : bool := N.eqb a b.

Fixpoint str_eqb (s t : str) : bool :=
  match s, t with
  | [], [] => true
  | a :: s', b :: t' => char_eqb a b && str_eqb s' t'
  | _, _ => false
  end.

(** [x in xs] for a list of strings, and for a list of characters. *)
Definition str_in (s : str) (l : list str) : bool := existsb (str_eqb s) l.
Definition char_in (c : char) (l : list char) : bool := existsb (char_eqb c) l.

(** [s[i:j]] and [s[i:]] for indices within [0 .. len s] or beyond: Python
    clamps a slice to the string. *)
Definition slice (s : str) (i j : nat) : str := firstn (j - i) (skipn i s).
Definition slice_from (s : str) (i : nat) : str := skipn i s.

(** ** Exceptions *)

Inductive exn_class := TypeError | ValueError | IndexError.

(** Each error names its class and where it is raised:
    - [TypeError_number]: "Phone number must be a string or integer."
    - [ValueError_length]: "Phone number must have exactly 10 or 11 digits."
    - [ValueError_code]: "Phone number contains an invalid area code or
      exchange code." (raised by both validation tests)
    - [ValueError_int]: [int()] applied to a string that is no literal
    - [ValueError_unpack]: [name, number = ...] on a list of length other
      than two
    - [IndexError_str]: [s[0]] on an empty string. *)
Inductive exn :=
| TypeError_number
| ValueError_length
| ValueError_code
| ValueError_int
| ValueError_unpack
| IndexError_str.

Definition class_of (e : exn) : exn_class :=
  match e with
  | TypeError_number => TypeError
  | ValueError_length | ValueError_code | ValueError_int | ValueError_unpack =>
      ValueError
  | IndexError_str => IndexError
  end.

Inductive result (A : Type) :=
| Ok (a : A)
| Raise (e : exn).
Arguments Ok {A} a.
Arguments Raise {A} e.

Definition bind {A B} (m : result A) (k : A -> result B) : result B :=
  match m with
  | Ok a => k a
  | Raise e => Raise e
  end.

Notation "x <- m ;; k" := (bind m (fun x => k))
  (at level 61, m at next level, right associativity).

(** [s[0]] *)
Definition index0 (s : str) : result char :=
  match s with
  | c :: _ => Ok c
  | [] => Raise IndexError_str
  end.

(** ** The keypad table *)

Definition LETTER_TO_NUMBER : list (char * char) :=
  [ (chr "A", chr "2"); (chr "B", chr "2"); (chr "C", chr "2");
    (chr "D", chr "3"); (chr "E", chr "3"); (chr "F", chr "3");
    (chr "G", chr "4"); (chr "H", chr "4"); (chr "I", chr "4");
    (chr "J", chr "5"); (chr "K", chr "5"); (chr "L", chr "5");
    (chr "M", chr "6"); (chr "N", chr "6"); (chr "O", chr "6");
    (chr "P", chr "7"); (chr "Q", chr "7"); (chr "R", chr "7");
    (chr "S", chr "7");
    (chr "T", chr "8"); (chr "U", chr "8"); (chr "V", chr "8");
    (chr "W", chr "9"); (chr "X", chr "9"); (chr "Y", chr "9");
    (chr "Z", chr "9") ].

(** Lookup in a dict given by its items (the keys of the literal above are
    pairwise distinct). *)
Fixpoint dict_get (d : list (char * char)) (k : char) : option char :=
  match d with
  | [] => None
  | (k', v) :: d' => if char_eqb k k' then Some v else dict_get d' k
  end.

(** ** Character classes *)

Definition is_digit (c : char) : bool := (48 <=? c) && (c <=? 57).
Definition is_upper (c : char) : bool := (65 <=? c) && (c <=? 90).
Definition is_lower (c : char) : bool := (97 <=? c) && (c <=? 122).

(** The characters the pattern [[^0-9a-zA-Z]] does not match. *)
Definition is_alnum (c : char) : bool := is_digit c || is_lower c || is_upper c.

(** [re.sub(r'[^0-9a-zA-Z]', '', s)] *)
Definition re_sub_non_alnum (s : str) : str := filter is_alnum s.

(** ** Python values passed to the constructor *)

(** A string, an integer, a boolean (in Python [bool] is a subclass of
    [int]), or an object of any other type, given by what [str()] returns
    for it. *)
Inductive value :=
| VStr (s : str)
| VInt (i : Z)
| VBool (b : bool)
| VOther (s : str).

(** [isinstance(number, (str, int))] *)
Definition isinstance_str_int (v : value) : bool :=
  match v with
  | VStr _ | VInt _ | VBool _ => true
  | VOther _ => false
  end.

(** [str(i)] for an integer: its decimal digits, after a minus sign when
    negative. *)
Definition str_of_int (i : Z) : str := lit (NilZero.string_of_int (Z.to_int i)).

Definition py_str (v : value) : str :=
  match v with
  | VStr s => s
  | VInt i => str_of_int i
  | VBool true => lit "True"
  | VBool false => lit "False"
  | VOther s => s
  end.

(** ** class PhoneNumber *)

Record PhoneNumber := mkPhoneNumber {
  area_code : str;
  exchange_code : str;
  line_number : str
}.

(** The body of [for char in number_str], from the value of [stack] before
    the iteration to its value after. *)
Definition translate_step (stack : str) (c : char) : str :=
  match dict_get LETTER_TO_NUMBER c with
  | Some d => stack ++ [d]
  | None => stack ++ [c]
  end.

Definition translate (number_str : str) : str :=
  fold_left translate_step number_str [].

(** The [if len(number_str) == 10 ... elif ... else] statement. *)
Definition decompose (number_str stack : str) : result PhoneNumber :=
  if (length number_str =? 10)%nat then
    Ok (mkPhoneNumber (slice stack 0 3) (slice stack 3 6) (slice_from stack 6))
  else if (length number_str =? 11)%nat then
    c <- index0 number_str ;;
    if char_eqb c (chr "1") then
      Ok (mkPhoneNumber (slice stack 1 4) (slice stack 4 7) (slice_from stack 7))
    else Raise ValueError_length
  else Raise ValueError_length.

Definition invalid_codes : list str :=
  [ lit "011"; lit "111"; lit "211"; lit "311";
    lit "411"; lit "511"; lit "611"; lit "711"; lit "811"; lit "911" ].

(** The two validation tests, on the attributes just set. *)
Definition validate (self : PhoneNumber) : result PhoneNumber :=
  a0 <- index0 (area_code self) ;;
  if char_in a0 [chr "0"; chr "1"] then Raise ValueError_code else
  e0 <- index0 (exchange_code self) ;;
  if char_in e0 [chr "0"; chr "1"] then Raise ValueError_code else
  if str_eqb (slice_from (exchange_code self) 1) (lit "11")
  then Raise ValueError_code else
  if str_in (area_code self) invalid_codes
     || str_in (exchange_code self) invalid_codes
  then Raise ValueError_code
  else Ok self.

(** [PhoneNumber.__init__]: the constructed object, or the exception. *)
Definition PhoneNumber_init (number : value) : result PhoneNumber :=
  if negb (isinstance_str_int number) then Raise TypeError_number else
  let number_str := py_str number in
  let number_str := re_sub_non_alnum number_str in
  let stack := translate number_str in
  self <- decompose number_str stack ;;
  validate self.

(** [int(s)] on a string of ASCII letters and digits, which is all the
    attributes of a [PhoneNumber] hold (see [init_fields_alnum]): the
    string must be a non-empty run of decimal digits. *)
Definition digit_value (c : char) : Z := Z.of_N c - 48.

Fixpoint int_digits (s : str) (acc : Z) : option Z :=
  match s with
  | [] => Some acc
  | c :: s' => if is_digit c then int_digits s' (10 * acc + digit_value c)%Z
               else None
  end.

Definition py_int (s : str) : result Z :=
  match s with
  | [] => Raise ValueError_int
  | _ => match int_digits s 0 with
         | Some z => Ok z
         | None => Raise ValueError_int
         end
  end.

(** [PhoneNumber.__int__] *)
Definition PhoneNumber_int (self : PhoneNumber) : result Z :=
  py_int (area_code self ++ exchange_code self ++ line_number self).

(** [PhoneNumber.__str__] *)
Definition PhoneNumber_str (self : PhoneNumber) : str :=
  lit "(" ++ area_code self ++ lit ") " ++ exchange_code self
          ++ lit "-" ++ line_number self.

(** [PhoneNumber.__repr__] *)
Definition PhoneNumber_repr (self : PhoneNumber) : result str :=
  i <- PhoneNumber_int self ;;
  Ok (lit "PhoneNumber('" ++ str_of_int i ++ lit "')").

(** [PhoneNumber.__lt__] *)
Definition PhoneNumber_lt (self other : PhoneNumber) : result bool :=
  a <- PhoneNumber_int self ;;
  b <- PhoneNumber_int other ;;
  Ok (a <? b)%Z.

(** ** read_numbers *)

(** The characters [str.strip()] removes: those for which [str.isspace]
    holds (U+0009..U+000D, U+001C..U+0020, U+0085, U+00A0, U+1680,
    U+2000..U+200A, U+2028, U+2029, U+202F, U+205F, U+3000). *)
Definition is_space (c : char) : bool :=
  ((9 <=? c) && (c <=? 13)) || ((28 <=? c) && (c <=? 32))
  || (c =? 133) || (c =? 160) || (c =? 5760)
  || ((8192 <=? c) && (c <=? 8202))
  || (c =? 8232) || (c =? 8233) || (c =? 8239) || (c =? 8287) || (c =? 12288).

Fixpoint lstrip (s : str) : str :=
  match s with
  | c :: s' => if is_space c then lstrip s' else s
  | [] => []
  end.

Definition strip (s : str) : str := rev (lstrip (rev (lstrip s))).

(** The tab character, ["\t"]. *)
Definition TAB : char := 9.

(** [s.split(sep)] for a separator of one character: one field more than
    there are separators in [s]. *)
Fixpoint split (sep : char) (s : str) : list str :=
  match s with
  | [] => [[]]
  | c :: s' =>
      if char_eqb c sep then [] :: split sep s'
      else match split sep s' with
           | field :: fields => (c :: field) :: fields
           | [] => [[c]]
           end
  end.

Definition entry := (str * PhoneNumber)%type.

(** The body of [for line in f], from the value of [tup_list] before the
    iteration to its value after.  The unpacking stands before the [try]
    statement, whose handlers catch [TypeError] and [ValueError]. *)
Definition read_line (tup_list : list entry) (line : str)
  : result (list entry) :=
  match split TAB (strip line) with
  | [name; number] =>
      match PhoneNumber_init (VStr number) with
      | Ok phone_number => Ok (tup_list ++ [(name, phone_number)])
      | Raise e =>
          match class_of e with
          | TypeError => Ok tup_list
          | ValueError => Ok tup_list
          | IndexError => Raise e
          end
      end
  | _ => Raise ValueError_unpack
  end.

Fixpoint for_lines (lines : list str) (tup_list : list entry)
  : result (list entry) :=
  match lines with
  | [] => Ok tup_list
  | line :: rest => t <- read_line tup_list line ;; for_lines rest t
  end.

(** [list.sort(key=lambda x: x[1])]: a stable sort that compares the keys
    with [<] only, here [PhoneNumber.__lt__], and raises what a comparison
    raises.  It is modelled by a stable insertion sort.  CPython merges runs
    found by binary insertion; the two agree on what is observable: the
    sorted list is the same when no comparison raises, a list of fewer than
    two items is compared with nothing, and in a longer list every item is
    compared with another one, so that both raise exactly when [int()] fails
    on some item. *)
Fixpoint insert (x : entry) (sorted : list entry) : result (list entry) :=
  match sorted with
  | [] => Ok [x]
  | y :: rest =>
      b <- PhoneNumber_lt (snd x) (snd y) ;;
      if b then Ok (x :: y :: rest)
      else r <- insert x rest ;; Ok (y :: r)
  end.

Fixpoint sort_from (l sorted : list entry) : result (list entry) :=
  match l with
  | [] => Ok sorted
  | x :: l' => s <- insert x sorted ;; sort_from l' s
  end.

Definition list_sort (l : list entry) : result (list entry) := sort_from l [].

(** [read_numbers], applied to the lines that iterating over the opened
    file yields. *)
Definition read_numbers (lines : list str) : result (list entry) :=
  tup_list <- for_lines lines [] ;;
  list_sort tup_list.

(** ** main *)

(** [main]: what the loop over [read_numbers(path)] prints, one string for
    each call of [print] (which ends it with a newline).  The f-string
    formats [number] with [PhoneNumber.__str__].  [read_numbers] has returned
    before the first line is printed, so an exception leaves no output. *)
Definition main (lines : list str) : result (list str) :=
  entries <- read_numbers lines ;;
  Ok (map (fun e : entry => PhoneNumber_str (snd e) ++ [TAB] ++ fst e) entries).

(** ** Notions used to state the properties *)

(** What one iteration of the loop appends for the character [c]. *)
Definition translate_char (c : char) : char :=
  match dict_get LETTER_TO_NUMBER c with
  | Some d => d
  | None => c
  end.

(** The characters a translated string is made of: digits and the
    lower-case letters, which the table does not list. *)
Definition is_field_char (c : char) : bool := is_digit c || is_lower c.

(** The three attributes cut from ten translated characters. *)
Definition fields (t : str) : PhoneNumber :=
  mkPhoneNumber (slice t 0 3) (slice t 3 6) (slice_from t 6).

(** *** The structural rules, in the words of the specification *)

Definition starts_with_0_or_1 (code : str) : Prop :=
  exists rest, code = chr "0" :: rest \/ code = chr "1" :: rest.

(** The last two characters of a code. *)
Definition last_two (code : str) : str := skipn (length code - 2) code.

(** An area code and an exchange code that the rules reject; the line
    number takes no part. *)
Definition rejected_codes (area exchange : str) : Prop :=
  starts_with_0_or_1 area \/ starts_with_0_or_1 exchange \/
  In area invalid_codes \/ In exchange invalid_codes \/
  last_two exchange = lit "11".

(** The first character is one of the digits 2 to 9. *)
Definition first_digit_2_to_9 (code : str) : Prop :=
  exists c rest, code = c :: rest /\ chr "2" <= c <= chr "9".

(** The rules a valid number satisfies. *)
Definition nanp_rules (area exchange : str) : Prop :=
  first_digit_2_to_9 area /\ first_digit_2_to_9 exchange /\
  ~ In area invalid_codes /\ ~ In exchange invalid_codes /\
  last_two exchange <> lit "11".

(** A digit string read as a base-10 integer. *)
Definition decimal_value (s : str) : Z :=
  fold_left (fun acc c => (10 * acc + digit_value c)%Z) s 0%Z.

(** "[s] with all letters uppercased", in the words of the claim: every
    ASCII lower-case letter is replaced by its capital. *)
Definition uppercased (s : str) : str :=
  map (fun c => if is_lower c then c - 32 else c) s.

(** [a] does not come after [b]: both numbers have an integer, and that of
    [a] is at most that of [b]. *)
Definition int_le (a b : entry) : Prop :=
  exists i j,
    PhoneNumber_int (snd a) = Ok i /\ PhoneNumber_int (snd b) = Ok j /\
    (i <= j)%Z.

Definition has_int (a : entry) : Prop :=
  exists i, PhoneNumber_int (snd a) = Ok i.

(** A line of two fields whose number has no lower-case letter. *)
Definition plain_line (line : str) : Prop :=
  exists name number,
    split TAB (strip line) = [name; number] /\
    Forall (fun c => is_lower c = false) number.

(** The digits of a [Decimal.uint] as a Python string, and the way back;
    they connect [str_of_int] with [decimal_value]. *)
Definition digits_of_uint (d : Decimal.uint) : str :=
  lit (NilEmpty.string_of_uint d).

Definition uint_digit (c : char) : Decimal.uint -> Decimal.uint :=
  if c =? 48 then Decimal.D0 else if c =? 49 then Decimal.D1
  else if c =? 50 then Decimal.D2 else if c =? 51 then Decimal.D3
  else if c =? 52 then Decimal.D4 else if c =? 53 then Decimal.D5
  else if c =? 54 then Decimal.D6 else if c =? 55 then Decimal.D7
  else if c =? 56 then Decimal.D8 else Decimal.D9.

Fixpoint uint_of_digits (s : str) : Decimal.uint :=
  match s with
  | [] => Decimal.Nil
  | c :: s' => uint_digit c (uint_of_digits s')
  end.

(** The entry a line contributes to [tup_list]: none when the number is
    refused. *)
Definition line_entry (line : str) : list entry :=
  match split TAB (strip line) with
  | [name; number] =>
      match PhoneNumber_init (VStr number) with
      | Ok p => [(name, p)]
      | Raise _ => []
      end
  | _ => []
  end.

(** The entries of a list whose number has the integer [k], in order. *)
Definition with_int (k : Z) (l : list entry) : list entry :=
  filter (fun e => match PhoneNumber_int (snd e) with
                   | Ok i => (i =? k)%Z
                   | Raise _ => false
                   end) l.

(** The key of a telephone keypad that carries the capital letter [c]:
    2 ABC, 3 DEF, 4 GHI, 5 JKL, 6 MNO, 7 PQRS, 8 TUV, 9 WXYZ. *)
Definition keypad_digit (c : char) : char :=
  if c <=? chr "C" then chr "2" else if c <=? chr "F" then chr "3"
  else if c <=? chr "I" then chr "4" else if c <=? chr "L" then chr "5"
  else if c <=? chr "O" then chr "6" else if c <=? chr "S" then chr "7"
  else if c <=? chr "V" then chr "8" else chr "9".

(** * Properties *)

(** ** Strings and the error monad *)

Lemma char_eqb_spec (a b : char) : reflect (a = b) (char_eqb a b).
Proof. apply N.eqb_spec. Qed.

Lemma str_eqb_eq (s t : str) : str_eqb s t = true <-> s = t.
Proof.
  revert t; induction s as [|a s IH]; intros [|b t]; simpl;
    try (split; [discriminate | congruence]); try tauto.
  rewrite andb_true_iff, IH. unfold char_eqb. rewrite N.eqb_eq.
  split; [intros [-> ->]; reflexivity | intros H; injection H; auto].
Qed.

Lemma str_eqb_refl (s : str) : str_eqb s s = true.
Proof. now apply str_eqb_eq. Qed.

Lemma str_in_In (s : str) (l : list str) : str_in s l = true <-> In s l.
Proof.
  unfold str_in. rewrite existsb_exists. split.
  - intros (t & Hin & Heq). apply str_eqb_eq in Heq. now subst.
  - intros Hin. exists s. split; [assumption | apply str_eqb_refl].
Qed.

Lemma char_in_In (c : char) (l : list char) : char_in c l = true <-> In c l.
Proof.
  unfold char_in. rewrite existsb_exists. split.
  - intros (d & Hin & Heq). apply N.eqb_eq in Heq. now subst.
  - intros Hin. exists c. split; [assumption | apply N.eqb_refl].
Qed.

Lemma bind_Ok {A B} (m : result A) (k : A -> result B) (b : B) :
  bind m k = Ok b <-> exists a, m = Ok a /\ k a = Ok b.
Proof.
  destruct m as [a|e]; simpl; split.
  - intros H. now exists a.
  - now intros (a' & [= ->] & H).
  - discriminate.
  - now intros (a' & [=] & _).
Qed.

(** ** The keypad translation *)

Lemma translate_step_char (stack : str) (c : char) :
  translate_step stack c = stack ++ [translate_char c].
Proof.
  unfold translate_step, translate_char.
  now destruct (dict_get LETTER_TO_NUMBER c).
Qed.

Lemma fold_translate (s stack : str) :
  fold_left translate_step s stack = stack ++ map translate_char s.
Proof.
  revert stack; induction s as [|c s IH]; intros stack; simpl.
  - now rewrite app_nil_r.
  - rewrite IH, translate_step_char, <- app_assoc. reflexivity.
Qed.

Lemma translate_map (s : str) : translate s = map translate_char s.
Proof. unfold translate. now rewrite fold_translate. Qed.

Lemma translate_length (s : str) : length (translate s) = length s.
Proof. rewrite translate_map. apply length_map. Qed.

Lemma translate_cons (c : char) (s : str) :
  translate (c :: s) = translate_char c :: translate s.
Proof. now rewrite !translate_map. Qed.

Ltac to_bounds :=
  unfold is_alnum, is_digit, is_upper, is_lower in *;
  repeat match goal with
  | H : _ && _ = true |- _ => apply andb_true_iff in H; destruct H
  | H : _ || _ = true |- _ => apply orb_true_iff in H; destruct H
  | H : _ && _ = false |- _ => apply andb_false_iff in H; destruct H
  | H : _ || _ = false |- _ => apply orb_false_iff in H; destruct H
  | H : (_ <=? _) = true |- _ => apply N.leb_le in H
  | H : (_ <=? _) = false |- _ => apply N.leb_gt in H
  | H : (_ =? _) = true |- _ => apply N.eqb_eq in H
  | H : (_ =? _) = false |- _ => apply N.eqb_neq in H
  end.

Ltac dict_cases c :=
  cbv [LETTER_TO_NUMBER dict_get char_eqb];
  repeat match goal with
  | |- context [N.eqb c ?k] => destruct (N.eqb_spec c k)
  end.

Lemma dict_get_not_upper (c : char) :
  is_upper c = false -> dict_get LETTER_TO_NUMBER c = None.
Proof.
  intros H. to_bounds; dict_cases c; try reflexivity; subst c;
    vm_compute in H; try discriminate; try (now destruct H).
Qed.

Lemma dict_get_upper (c : char) :
  is_upper c = true ->
  exists d, dict_get LETTER_TO_NUMBER c = Some d /\ 50 <= d <= 57.
Proof.
  intros H. to_bounds. dict_cases c;
    try (eexists; split; [reflexivity | vm_compute; split; discriminate]).
  exfalso. change (chr "A") with 65 in *.
  repeat match goal with
  | H : c <> chr ?a |- _ =>
      let k := eval vm_compute in (chr a) in change (chr a) with k in H
  end.
  lia.
Qed.

Lemma translate_char_digit (c : char) :
  is_digit c = true -> translate_char c = c.
Proof.
  intros H. unfold translate_char. rewrite dict_get_not_upper; [reflexivity|].
  to_bounds. apply andb_false_iff. left. apply N.leb_gt. lia.
Qed.

Lemma translate_char_lower (c : char) :
  is_lower c = true -> translate_char c = c.
Proof.
  intros H. unfold translate_char. rewrite dict_get_not_upper; [reflexivity|].
  to_bounds. apply andb_false_iff. right. apply N.leb_gt. lia.
Qed.

Lemma translate_char_alnum (c : char) :
  is_alnum c = true -> is_field_char (translate_char c) = true.
Proof.
  intros H. unfold is_alnum in H. unfold is_field_char.
  apply orb_true_iff in H. destruct H as [H|H].
  - apply orb_true_iff in H. destruct H as [H|H].
    + rewrite translate_char_digit; [|assumption]. now rewrite H.
    + rewrite translate_char_lower; [|assumption]. rewrite H. apply orb_true_r.
  - destruct (dict_get_upper c H) as (d & Hd & Hlo & Hhi).
    unfold translate_char. rewrite Hd. apply orb_true_iff. left.
    unfold is_digit. apply andb_true_iff. split; apply N.leb_le; lia.
Qed.

Lemma translate_char_field (c : char) :
  is_field_char c = true -> translate_char c = c.
Proof.
  intros H. apply orb_true_iff in H.
  destruct H; [now apply translate_char_digit | now apply translate_char_lower].
Qed.

Lemma field_char_alnum (c : char) : is_field_char c = true -> is_alnum c = true.
Proof. unfold is_field_char, is_alnum. intros ->. reflexivity. Qed.

Lemma translate_fixed (s : str) :
  Forall (fun c => is_field_char c = true) s -> translate s = s.
Proof.
  intros H. rewrite translate_map. induction H as [|c s Hc _ IH]; simpl.
  - reflexivity.
  - now rewrite translate_char_field, IH.
Qed.

Lemma translate_field_chars (s : str) :
  Forall (fun c => is_alnum c = true) s ->
  Forall (fun c => is_field_char c = true) (translate s).
Proof.
  intros H. rewrite translate_map. induction H; simpl; constructor.
  - now apply translate_char_alnum.
  - assumption.
Qed.

(** ** Cleaning *)

Lemma clean_alnum (s : str) :
  Forall (fun c => is_alnum c = true) (re_sub_non_alnum s).
Proof. apply Forall_forall. intros c Hc. now apply filter_In in Hc. Qed.

Lemma clean_fixed (s : str) :
  Forall (fun c => is_alnum c = true) s -> re_sub_non_alnum s = s.
Proof.
  unfold re_sub_non_alnum. induction 1 as [|c s Hc _ IH]; simpl.
  - reflexivity.
  - now rewrite Hc, IH.
Qed.

Lemma clean_idem (s : str) :
  re_sub_non_alnum (re_sub_non_alnum s) = re_sub_non_alnum s.
Proof. apply clean_fixed, clean_alnum. Qed.

Lemma clean_app (s t : str) :
  re_sub_non_alnum (s ++ t) = re_sub_non_alnum s ++ re_sub_non_alnum t.
Proof. apply filter_app. Qed.

(** ** The constructor, case by case *)

Lemma validate_self (p q : PhoneNumber) : validate p = Ok q -> q = p.
Proof.
  unfold validate. destruct (index0 (area_code p)); cbn [bind]; [|discriminate].
  destruct (char_in _ _); [discriminate|].
  destruct (index0 (exchange_code p)); cbn [bind]; [|discriminate].
  destruct (char_in _ _); [discriminate|].
  destruct (str_eqb _ _); [discriminate|].
  destruct (_ || _); [discriminate|]. congruence.
Qed.

Lemma init_len10 (number : value) :
  isinstance_str_int number = true ->
  length (re_sub_non_alnum (py_str number)) = 10%nat ->
  PhoneNumber_init number
  = validate (fields (translate (re_sub_non_alnum (py_str number)))).
Proof.
  intros Hty Hlen. unfold PhoneNumber_init, decompose.
  rewrite Hty, Hlen. reflexivity.
Qed.

Lemma init_len11 (number : value) (body : str) :
  isinstance_str_int number = true ->
  re_sub_non_alnum (py_str number) = chr "1" :: body ->
  length body = 10%nat ->
  PhoneNumber_init number = validate (fields (translate body)).
Proof.
  intros Hty Hclean Hlen. unfold PhoneNumber_init, decompose.
  rewrite Hty, Hclean, translate_cons. cbn [length]. rewrite Hlen.
  reflexivity.
Qed.

Lemma init_bad_length (number : value) :
  isinstance_str_int number = true ->
  length (re_sub_non_alnum (py_str number)) <> 10%nat ->
  ~ (length (re_sub_non_alnum (py_str number)) = 11%nat /\
     nth_error (re_sub_non_alnum (py_str number)) 0 = Some (chr "1")) ->
  PhoneNumber_init number = Raise ValueError_length.
Proof.
  intros Hty H10 H11. unfold PhoneNumber_init, decompose. rewrite Hty.
  cbn [negb].
  destruct (Nat.eqb_spec (length (re_sub_non_alnum (py_str number))) 10);
    [contradiction|].
  destruct (Nat.eqb_spec (length (re_sub_non_alnum (py_str number))) 11);
    [|reflexivity].
  destruct (re_sub_non_alnum (py_str number)) as [|c s]; [discriminate|].
  cbn [index0 bind].
  destruct (char_eqb_spec c (chr "1")) as [->|Hc]; [|reflexivity].
  exfalso. apply H11. split; [assumption | reflexivity].
Qed.

Lemma init_not_str_int (number : value) :
  isinstance_str_int number = false ->
  PhoneNumber_init number = Raise TypeError_number.
Proof. intros H. unfold PhoneNumber_init. now rewrite H. Qed.

(** A constructed number comes from ten cleaned characters, after a ['1']
    or not. *)
Lemma init_Ok_inv (number : value) (p : PhoneNumber) :
  PhoneNumber_init number = Ok p ->
  exists body,
    length body = 10%nat /\
    (re_sub_non_alnum (py_str number) = body \/
     re_sub_non_alnum (py_str number) = chr "1" :: body) /\
    p = fields (translate body) /\
    validate p = Ok p.
Proof.
  intros H.
  destruct (isinstance_str_int number) eqn:Hty;
    [|rewrite init_not_str_int in H by assumption; discriminate].
  destruct (Nat.eq_dec (length (re_sub_non_alnum (py_str number))) 10)
    as [H10|H10].
  - rewrite init_len10 in H by assumption.
    pose proof (validate_self _ _ H) as ->.
    eexists. repeat split; [exact H10 | now left | exact H].
  - destruct (re_sub_non_alnum (py_str number)) as [|c body] eqn:Hclean.
    + rewrite init_bad_length in H; try discriminate; try assumption;
        rewrite Hclean; [discriminate | intros [[=] _]].
    + destruct (char_eqb_spec c (chr "1")) as [->|Hc];
        [destruct (Nat.eq_dec (length body) 10) as [Hb|Hb]|].
      * rewrite (init_len11 number body) in H by assumption.
        pose proof (validate_self _ _ H) as ->.
        exists body. repeat split; [exact Hb | now right | exact H].
      * rewrite init_bad_length in H; try discriminate; try assumption;
          rewrite Hclean; [assumption | cbn; intros [[=] _]; contradiction].
      * rewrite init_bad_length in H; try discriminate; try assumption;
          rewrite Hclean; [assumption | cbn; intros [_ [=]]; contradiction].
Qed.

Lemma length3 (s : str) :
  length s = 3%nat -> exists a b c, s = [a; b; c].
Proof.
  destruct s as [|a [|b [|c [|d s]]]]; try discriminate.
  intros _. now exists a, b, c.
Qed.

Lemma char_in_01 (c : char) :
  char_in c [chr "0"; chr "1"] = true <-> c = chr "0" \/ c = chr "1".
Proof. rewrite char_in_In. simpl. intuition congruence. Qed.

Lemma validate_spec (area exchange line : str) :
  length area = 3%nat -> length exchange = 3%nat ->
  (rejected_codes area exchange /\
   validate (mkPhoneNumber area exchange line) = Raise ValueError_code)
  \/
  (~ rejected_codes area exchange /\
   validate (mkPhoneNumber area exchange line)
   = Ok (mkPhoneNumber area exchange line)).
Proof.
  intros Ha He.
  destruct (length3 _ Ha) as (a0 & a1 & a2 & ->).
  destruct (length3 _ He) as (e0 & e1 & e2 & ->).
  unfold validate, rejected_codes, last_two.
  cbn [area_code exchange_code index0 bind slice_from skipn length Nat.sub].
  destruct (char_in a0 [chr "0"; chr "1"]) eqn:Ha0.
  { left. split; [|reflexivity]. left. apply char_in_01 in Ha0.
    exists [a1; a2]. destruct Ha0; subst; auto. }
  destruct (char_in e0 [chr "0"; chr "1"]) eqn:He0.
  { left. split; [|reflexivity]. right; left. apply char_in_01 in He0.
    exists [e1; e2]. destruct He0; subst; auto. }
  destruct (str_eqb [e1; e2] (lit "11")) eqn:H11.
  { left. split; [|reflexivity]. do 4 right. now apply str_eqb_eq. }
  destruct (str_in [a0; a1; a2] invalid_codes) eqn:Hia.
  { left. split; [|reflexivity]. do 2 right; left. now apply str_in_In. }
  destruct (str_in [e0; e1; e2] invalid_codes) eqn:Hie.
  { left. split; [|reflexivity]. do 3 right; left. now apply str_in_In. }
  right. split; [|reflexivity].
  intros [(r & H)|[(r & H)|[H|[H|H]]]].
  - assert (a0 = chr "0" \/ a0 = chr "1") as H' by (destruct H as [[= -> _]|[= -> _]]; auto).
    apply char_in_01 in H'. congruence.
  - assert (e0 = chr "0" \/ e0 = chr "1") as H' by (destruct H as [[= -> _]|[= -> _]]; auto).
    apply char_in_01 in H'. congruence.
  - apply str_in_In in H. congruence.
  - apply str_in_In in H. congruence.
  - apply str_eqb_eq in H. congruence.
Qed.

Lemma fields_lengths (t : str) :
  length t = 10%nat ->
  length (area_code (fields t)) = 3%nat /\
  length (exchange_code (fields t)) = 3%nat /\
  length (line_number (fields t)) = 4%nat.
Proof.
  intros H. unfold fields, slice, slice_from. cbn [area_code exchange_code line_number].
  rewrite !length_firstn, !length_skipn, H. repeat split.
Qed.

Lemma fields_concat (t : str) :
  area_code (fields t) ++ exchange_code (fields t) ++ line_number (fields t) = t.
Proof.
  unfold fields, slice, slice_from. cbn [area_code exchange_code line_number].
  change (firstn (3 - 0) (skipn 0 t)) with (firstn 3 t).
  change (6 - 3)%nat with 3%nat.
  replace (skipn 6 t) with (skipn 3 (skipn 3 t))
    by (rewrite skipn_skipn; reflexivity).
  now rewrite !firstn_skipn.
Qed.

(** The rules for a valid number and the rejection are complementary on
    codes that start with a digit. *)
Lemma nanp_rules_not_rejected (area exchange : str) :
  nanp_rules area exchange -> ~ rejected_codes area exchange.
Proof.
  intros ((a & ra & -> & Ha) & (e & re & -> & He) & Hia & Hie & H11).
  change (chr "2") with 50 in *.
  intros [(r & H)|[(r & H)|[H|[H|H]]]]; try contradiction.
  - destruct H as [[= -> _]|[= -> _]]; vm_compute in Ha; destruct Ha; auto.
  - destruct H as [[= -> _]|[= -> _]]; vm_compute in He; destruct He; auto.
Qed.

(** ** Integers read from digits *)

Lemma int_digits_all (s : str) (acc : Z) :
  Forall (fun c => is_digit c = true) s ->
  int_digits s acc
  = Some (fold_left (fun acc c => (10 * acc + digit_value c)%Z) s acc).
Proof.
  intros H. revert acc. induction H as [|c s Hc _ IH]; intros acc; simpl.
  - reflexivity.
  - rewrite Hc. apply IH.
Qed.

Lemma int_digits_letter (s : str) (acc : Z) :
  Exists (fun c => is_digit c = false) s -> int_digits s acc = None.
Proof.
  intros H. revert acc. induction H as [c s Hc|c s _ IH]; intros acc; simpl.
  - now rewrite Hc.
  - destruct (is_digit c); [apply IH | reflexivity].
Qed.

Lemma py_int_digits (s : str) :
  s <> [] -> Forall (fun c => is_digit c = true) s ->
  py_int s = Ok (decimal_value s).
Proof.
  intros Hne H. unfold py_int. rewrite (int_digits_all s 0 H).
  destruct s; [contradiction | reflexivity].
Qed.

(** ** Attributes of a constructed number *)

Lemma init_body_alnum (number : value) (body : str) :
  re_sub_non_alnum (py_str number) = body \/
  re_sub_non_alnum (py_str number) = chr "1" :: body ->
  Forall (fun c => is_alnum c = true) body.
Proof.
  intros [H|H]; pose proof (clean_alnum (py_str number)) as Hc;
    rewrite H in Hc; [assumption | now inversion Hc].
Qed.

(** Every attribute has its width and holds digits and lower-case letters
    only. *)
Lemma init_fields_alnum (number : value) (p : PhoneNumber) :
  PhoneNumber_init number = Ok p ->
  (length (area_code p) = 3%nat /\ length (exchange_code p) = 3%nat /\
   length (line_number p) = 4%nat) /\
  Forall (fun c => is_field_char c = true)
         (area_code p ++ exchange_code p ++ line_number p).
Proof.
  intros H. destruct (init_Ok_inv _ _ H) as (body & Hlen & Hbody & -> & _).
  split.
  - apply fields_lengths. now rewrite translate_length.
  - rewrite fields_concat. apply translate_field_chars.
    now apply (init_body_alnum number).
Qed.

(** * The claims *)

Ltac solve_rules :=
  repeat split;
  try (eexists; eexists; split; [reflexivity | split; discriminate]);
  try discriminate;
  try (intros H; simpl in H;
       repeat match type of H with
              | _ \/ _ => destruct H as [H|H]
              end; now inversion H).

(** C1.  A string of ten digits whose area code and exchange code follow
    the rules (first digit 2 to 9, not a reserved code, exchange code not
    ending in 11) is accepted, and the integer of the constructed number is
    the string read in base 10. *)
Theorem valid_digits_accepted (n : str) :
  length n = 10%nat ->
  Forall (fun c => is_digit c = true) n ->
  nanp_rules (slice n 0 3) (slice n 3 6) ->
  exists p,
    PhoneNumber_init (VStr n) = Ok p /\
    PhoneNumber_int p = Ok (decimal_value n).
Proof.
  intros Hlen Hdig Hrules.
  assert (Hclean : re_sub_non_alnum n = n).
  { apply clean_fixed. eapply Forall_impl; [|exact Hdig].
    intros c Hc. unfold is_alnum. now rewrite Hc. }
  assert (Htr : translate n = n).
  { apply translate_fixed. eapply Forall_impl; [|exact Hdig].
    intros c Hc. unfold is_field_char. now rewrite Hc. }
  exists (fields n). split.
  - rewrite init_len10; cbn [py_str isinstance_str_int];
      rewrite ?Hclean; [|reflexivity|assumption].
    rewrite Htr.
    destruct (fields_lengths n Hlen) as (Ha & He & _).
    destruct (validate_spec (slice n 0 3) (slice n 3 6) (slice_from n 6) Ha He)
      as [[Hrej _]|[_ Hok]]; [|exact Hok].
    now apply nanp_rules_not_rejected in Hrules.
  - unfold PhoneNumber_int. rewrite fields_concat.
    apply py_int_digits; [|assumption].
    intros ->. discriminate.
Qed.

Lemma valid_digits_accepted_witness :
  exists p,
    PhoneNumber_init (VStr (lit "2125550100")) = Ok p /\
    PhoneNumber_int p = Ok 2125550100%Z.
Proof.
  apply (valid_digits_accepted (lit "2125550100")).
  - reflexivity.
  - repeat constructor.
  - solve_rules.
Defined.

(** C2.  On the input ['a125551234'] the constructor succeeds with the area
    code ['a12']: its first character is a lower-case letter, no digit, and
    [int()] of the constructed number raises. *)
Theorem lowercase_area_code_constructed :
  PhoneNumber_init (VStr (lit "a125551234"))
  = Ok (mkPhoneNumber (lit "a12") (lit "555") (lit "1234")) /\
  is_digit (chr "a") = false /\
  PhoneNumber_int (mkPhoneNumber (lit "a12") (lit "555") (lit "1234"))
  = Raise ValueError_int.
Proof. repeat split. Qed.

(** Without lower-case letters in the cleaned input every attribute holds
    digits only and the two codes start with a digit from 2 to 9. *)
Lemma init_fields_digits (number : value) (p : PhoneNumber) :
  PhoneNumber_init number = Ok p ->
  Forall (fun c => is_lower c = false) (re_sub_non_alnum (py_str number)) ->
  Forall (fun c => is_digit c = true)
         (area_code p ++ exchange_code p ++ line_number p) /\
  first_digit_2_to_9 (area_code p) /\ first_digit_2_to_9 (exchange_code p).
Proof.
  intros H Hlow.
  destruct (init_fields_alnum _ _ H) as ((Ha & He & _) & _).
  destruct (init_Ok_inv _ _ H) as (body & Hlen & Hbody & -> & Hval).
  assert (Hb : Forall (fun c => is_alnum c = true /\ is_lower c = false) body).
  { pose proof (init_body_alnum number body Hbody) as Hal.
    assert (Hl : Forall (fun c => is_lower c = false) body)
      by (destruct Hbody as [E|E]; rewrite E in Hlow;
          [assumption | now inversion Hlow]).
    clear - Hal Hl. induction Hal; inversion Hl; subst; constructor; auto. }
  assert (Hd : Forall (fun c => is_digit c = true) (translate body)).
  { rewrite translate_map. clear - Hb.
    induction Hb as [|c s [Hal Hlo] _ IH]; simpl; constructor; [|exact IH].
    unfold is_alnum in Hal. rewrite Hlo, orb_false_r in Hal.
    apply orb_true_iff in Hal. destruct Hal as [Hal|Hup].
    - now rewrite translate_char_digit.
    - destruct (dict_get_upper c Hup) as (d & Hd & Hlo' & Hhi).
      unfold translate_char. rewrite Hd. unfold is_digit.
      apply andb_true_iff. split; apply N.leb_le; lia. }
  rewrite fields_concat. split; [exact Hd|].
  rewrite <- (fields_concat (translate body)) in Hd.
  apply Forall_app in Hd. destruct Hd as [Hda Hd].
  apply Forall_app in Hd. destruct Hd as [Hde _].
  destruct (validate_spec _ _ (line_number (fields (translate body))) Ha He)
    as [[_ Hr]|[Hnr _]].
  { change (mkPhoneNumber _ _ _) with (fields (translate body)) in Hr.
    congruence. }
  destruct (length3 _ Ha) as (a0 & a1 & a2 & Ea).
  destruct (length3 _ He) as (e0 & e1 & e2 & Ee).
  rewrite Ea, Ee in *. inversion Hda as [|? ? Ha0 _]. inversion Hde as [|? ? He0 _].
  subst. split.
  - exists a0, [a1; a2]. split; [reflexivity|].
    assert (a0 <> chr "0" /\ a0 <> chr "1") as [N0 N1]
      by (split; intros ->; apply Hnr; left; exists [a1; a2]; auto).
    change (chr "0") with 48 in N0. change (chr "1") with 49 in N1.
    change (chr "2") with 50. change (chr "9") with 57. to_bounds. lia.
  - exists e0, [e1; e2]. split; [reflexivity|].
    assert (e0 <> chr "0" /\ e0 <> chr "1") as [N0 N1]
      by (split; intros ->; apply Hnr; right; left; exists [e1; e2]; auto).
    change (chr "0") with 48 in N0. change (chr "1") with 49 in N1.
    change (chr "2") with 50. change (chr "9") with 57. to_bounds. lia.
Qed.

(** C3.  The lower-case letters of ['212555abcd'] are not translated: the
    line number is ['abcd'], where the uppercased input gives ['2223']. *)
Theorem lowercase_not_translated :
  PhoneNumber_init (VStr (lit "212555abcd"))
  = Ok (mkPhoneNumber (lit "212") (lit "555") (lit "abcd")) /\
  uppercased (lit "212555abcd") = lit "212555ABCD" /\
  PhoneNumber_init (VStr (uppercased (lit "212555abcd")))
  = Ok (mkPhoneNumber (lit "212") (lit "555") (lit "2223")).
Proof. repeat split. Qed.

(** C4.  For a string or integer whose cleaned form has length 10, or
    length 11 with a leading ['1'], the constructor raises the invalid-code
    error exactly when the area code or the exchange code cut from the
    translated string starts with 0 or 1, is a reserved code, or the
    exchange code ends in 11; otherwise it succeeds.  The line number takes
    no part: validation gives the same verdict for any other line number. *)
Theorem invalid_code_iff (number : value) :
  isinstance_str_int number = true ->
  length (re_sub_non_alnum (py_str number)) = 10%nat \/
  (length (re_sub_non_alnum (py_str number)) = 11%nat /\
   nth_error (re_sub_non_alnum (py_str number)) 0 = Some (chr "1")) ->
  exists self,
    decompose (re_sub_non_alnum (py_str number))
              (translate (re_sub_non_alnum (py_str number))) = Ok self /\
    (PhoneNumber_init number = Raise ValueError_code <->
     rejected_codes (area_code self) (exchange_code self)) /\
    (~ rejected_codes (area_code self) (exchange_code self) ->
     PhoneNumber_init number = Ok self) /\
    (forall line,
       validate (mkPhoneNumber (area_code self) (exchange_code self) line)
       = Raise ValueError_code <->
       validate self = Raise ValueError_code).
Proof.
  intros Hty Hlen.
  assert (exists body,
            length body = 10%nat /\
            decompose (re_sub_non_alnum (py_str number))
              (translate (re_sub_non_alnum (py_str number)))
            = Ok (fields (translate body)) /\
            PhoneNumber_init number = validate (fields (translate body)))
    as (body & Hb & Hdec & Hinit).
  { destruct Hlen as [H10|[H11 Hhd]].
    - exists (re_sub_non_alnum (py_str number)). split; [assumption|]. split.
      + unfold decompose. rewrite H10. reflexivity.
      + now apply init_len10.
    - destruct (re_sub_non_alnum (py_str number)) as [|c body] eqn:E;
        [discriminate|].
      injection Hhd as ->. injection H11 as H11.
      exists body. split; [assumption|]. split.
      + unfold decompose. rewrite translate_cons. cbn [length]. rewrite H11.
        reflexivity.
      + now apply init_len11. }
  exists (fields (translate body)). split; [exact Hdec|].
  rewrite Hinit.
  assert (Ht : length (translate body) = 10%nat)
    by now rewrite translate_length.
  destruct (fields_lengths _ Ht) as (Ha & He & _).
  set (self := fields (translate body)) in *.
  assert (Hself : forall line,
             (rejected_codes (area_code self) (exchange_code self) /\
              validate (mkPhoneNumber (area_code self) (exchange_code self) line)
              = Raise ValueError_code) \/
             (~ rejected_codes (area_code self) (exchange_code self) /\
              validate (mkPhoneNumber (area_code self) (exchange_code self) line)
              = Ok (mkPhoneNumber (area_code self) (exchange_code self) line)))
    by (intros line; now apply validate_spec).
  assert (Eself : self
                  = mkPhoneNumber (area_code self) (exchange_code self)
                                  (line_number self)) by reflexivity.
  pose proof (Hself (line_number self)) as H0. rewrite <- Eself in H0.
  repeat split.
  - intros Hr. destruct H0 as [[Hrej _]|[_ Hok]]; [assumption|congruence].
  - intros Hrej. destruct H0 as [[_ Hr]|[Hn _]]; [assumption|contradiction].
  - intros Hn. destruct H0 as [[Hrej _]|[_ Hok]]; [contradiction|assumption].
  - intros Hr. destruct H0 as [[_ Hr']|[Hn _]]; [assumption|].
    destruct (Hself line) as [[Hrej _]|[_ Hok]]; [contradiction|congruence].
  - intros Hr. destruct H0 as [[Hrej _]|[_ Hok]]; [|congruence].
    destruct (Hself line) as [[_ Hr']|[Hn _]]; [assumption|contradiction].
Qed.

Lemma invalid_code_iff_witness :
  exists self,
    decompose (lit "1234567890") (translate (lit "1234567890")) = Ok self /\
    (PhoneNumber_init (VStr (lit "123-456-7890")) = Raise ValueError_code <->
     rejected_codes (area_code self) (exchange_code self)) /\
    (~ rejected_codes (area_code self) (exchange_code self) ->
     PhoneNumber_init (VStr (lit "123-456-7890")) = Ok self) /\
    (forall line,
       validate (mkPhoneNumber (area_code self) (exchange_code self) line)
       = Raise ValueError_code <->
       validate self = Raise ValueError_code).
Proof.
  apply (invalid_code_iff (VStr (lit "123-456-7890"))).
  - reflexivity.
  - left. reflexivity.
Defined.

(** C5.  A string or integer whose cleaned form has neither length 10 nor
    length 11 with a leading ['1'] is refused with the invalid-length error,
    raised by the decomposition before any attribute is set. *)
Theorem invalid_length (number : value) :
  isinstance_str_int number = true ->
  length (re_sub_non_alnum (py_str number)) <> 10%nat ->
  ~ (length (re_sub_non_alnum (py_str number)) = 11%nat /\
     nth_error (re_sub_non_alnum (py_str number)) 0 = Some (chr "1")) ->
  PhoneNumber_init number = Raise ValueError_length /\
  decompose (re_sub_non_alnum (py_str number))
            (translate (re_sub_non_alnum (py_str number)))
  = Raise ValueError_length.
Proof.
  intros Hty H10 H11. split; [now apply init_bad_length|].
  pose proof (init_bad_length number Hty H10 H11) as H.
  unfold PhoneNumber_init in H. rewrite Hty in H. cbn [negb] in H.
  destruct (decompose _ _) as [self|e] eqn:E; [|cbn in H; congruence].
  exfalso. unfold decompose in E.
  destruct (Nat.eqb_spec (length (re_sub_non_alnum (py_str number))) 10);
    [contradiction|].
  destruct (Nat.eqb_spec (length (re_sub_non_alnum (py_str number))) 11);
    [|discriminate].
  destruct (re_sub_non_alnum (py_str number)) as [|c s]; [discriminate|].
  cbn [index0 bind] in E.
  destruct (char_eqb_spec c (chr "1")) as [->|Hc]; [|discriminate].
  apply H11. split; [assumption | reflexivity].
Qed.

Lemma invalid_length_witness :
  PhoneNumber_init (VStr (lit "2-212-555-0100")) = Raise ValueError_length /\
  decompose (lit "22125550100") (translate (lit "22125550100"))
  = Raise ValueError_length.
Proof.
  apply (invalid_length (VStr (lit "2-212-555-0100"))).
  - reflexivity.
  - discriminate.
  - intros [_ H]. discriminate H.
Defined.

(** C6.  When the constructor accepts an input whose cleaned form has ten
    characters (a cleaned string of ten characters is its own cleaned
    form), it accepts the input after a ['1'] too and sets the same area
    code, exchange code and line number. *)
Theorem leading_one_same_number (n : str) (p : PhoneNumber) :
  length (re_sub_non_alnum n) = 10%nat ->
  PhoneNumber_init (VStr n) = Ok p ->
  PhoneNumber_init (VStr (chr "1" :: n)) = Ok p.
Proof.
  intros Hlen H.
  rewrite init_len10 in H by (try reflexivity; assumption).
  rewrite (init_len11 (VStr (chr "1" :: n)) (re_sub_non_alnum n));
    [exact H | reflexivity | reflexivity | assumption].
Qed.

Lemma leading_one_same_number_witness :
  PhoneNumber_init (VStr (lit "1800FLOWERS"))
  = Ok (mkPhoneNumber (lit "800") (lit "356") (lit "9377")).
Proof.
  apply (leading_one_same_number (lit "800FLOWERS")); reflexivity.
Defined.

(** ** The display string *)

Lemma clean_display (p : PhoneNumber) :
  re_sub_non_alnum (PhoneNumber_str p)
  = re_sub_non_alnum (area_code p ++ exchange_code p ++ line_number p).
Proof.
  unfold PhoneNumber_str. rewrite !clean_app.
  change (re_sub_non_alnum (lit "(")) with (@nil char).
  change (re_sub_non_alnum (lit ") ")) with (@nil char).
  change (re_sub_non_alnum (lit "-")) with (@nil char).
  reflexivity.
Qed.

(** The display string of a constructed number is accepted again and gives
    the same three attributes; when the number has an integer, neither of
    the two is less than the other. *)
Theorem display_round_trip (number : value) (n : PhoneNumber) :
  PhoneNumber_init number = Ok n ->
  exists n',
    PhoneNumber_init (VStr (PhoneNumber_str n)) = Ok n' /\
    n' = n /\
    PhoneNumber_int n' = PhoneNumber_int n /\
    (forall i, PhoneNumber_int n = Ok i ->
               PhoneNumber_lt n n' = Ok false /\
               PhoneNumber_lt n' n = Ok false).
Proof.
  intros H. exists n.
  destruct (init_Ok_inv _ _ H) as (body & Hlen & Hbody & Hn & Hval).
  pose proof (translate_field_chars body (init_body_alnum _ _ Hbody)) as Hf.
  assert (Hclean : re_sub_non_alnum (PhoneNumber_str n) = translate body).
  { rewrite clean_display, Hn, fields_concat. apply clean_fixed.
    eapply Forall_impl; [|exact Hf]. apply field_char_alnum. }
  split; [|split; [reflexivity | split; [reflexivity|]]].
  - rewrite init_len10; cbn [py_str isinstance_str_int]; rewrite ?Hclean;
      [|reflexivity | now rewrite translate_length].
    rewrite (translate_fixed _ Hf), <- Hn. exact Hval.
  - intros i Hi. unfold PhoneNumber_lt. rewrite Hi. cbn.
    now rewrite Z.ltb_irrefl.
Qed.

Lemma display_round_trip_witness :
  exists n',
    PhoneNumber_init (VStr (lit "(800) 356-9377")) = Ok n' /\
    n' = mkPhoneNumber (lit "800") (lit "356") (lit "9377") /\
    PhoneNumber_int n' = Ok 8003569377%Z /\
    (forall i, Ok 8003569377%Z = Ok i ->
               PhoneNumber_lt (mkPhoneNumber (lit "800") (lit "356") (lit "9377")) n'
               = Ok false /\
               PhoneNumber_lt n' (mkPhoneNumber (lit "800") (lit "356") (lit "9377"))
               = Ok false).
Proof.
  apply (display_round_trip (VStr (lit "1-800-FLOWERS"))
           (mkPhoneNumber (lit "800") (lit "356") (lit "9377"))).
  reflexivity.
Defined.

(** C8.  The number constructed from ['a125551234'] has the display string
    ['(a12) 555-1234'], which the constructor accepts again with the same
    attributes; but neither number has an integer: [int()] raises
    [ValueError] on it, and so does the comparison [<] of the two, so they
    are not equal under the ordering. *)
Theorem display_round_trip_without_integer :
  PhoneNumber_init (VStr (lit "a125551234"))
  = Ok (mkPhoneNumber (lit "a12") (lit "555") (lit "1234")) /\
  PhoneNumber_str (mkPhoneNumber (lit "a12") (lit "555") (lit "1234"))
  = lit "(a12) 555-1234" /\
  PhoneNumber_init (VStr (lit "(a12) 555-1234"))
  = Ok (mkPhoneNumber (lit "a12") (lit "555") (lit "1234")) /\
  PhoneNumber_int (mkPhoneNumber (lit "a12") (lit "555") (lit "1234"))
  = Raise ValueError_int /\
  PhoneNumber_lt (mkPhoneNumber (lit "a12") (lit "555") (lit "1234"))
                 (mkPhoneNumber (lit "a12") (lit "555") (lit "1234"))
  = Raise ValueError_int.
Proof. repeat split. Qed.

(** ** Integers as input *)

Lemma clean_str_of_int_opp (i : Z) :
  re_sub_non_alnum (str_of_int (- i)) = re_sub_non_alnum (str_of_int i).
Proof. destruct i as [|q|q]; reflexivity. Qed.

(** C10.  An integer is handled as the string of its decimal digits with
    the characters that are no letters or digits removed, among them the
    minus sign of a negative integer: [-i] and [i] give the same outcome,
    and [-2125550100] is accepted as 212 555 0100. *)
Theorem integer_input_as_cleaned_string :
  (forall i : Z,
     PhoneNumber_init (VInt i)
     = PhoneNumber_init (VStr (re_sub_non_alnum (str_of_int i))) /\
     PhoneNumber_init (VInt (- i)) = PhoneNumber_init (VInt i)) /\
  str_of_int (-2125550100) = lit "-2125550100" /\
  PhoneNumber_init (VInt (-2125550100))
  = Ok (mkPhoneNumber (lit "212") (lit "555") (lit "0100")) /\
  PhoneNumber_init (VInt 2125550100)
  = Ok (mkPhoneNumber (lit "212") (lit "555") (lit "0100")).
Proof.
  split; [|repeat split].
  intros i. split.
  - unfold PhoneNumber_init. cbn [isinstance_str_int negb py_str].
    now rewrite clean_idem.
  - unfold PhoneNumber_init. cbn [isinstance_str_int negb py_str].
    now rewrite clean_str_of_int_opp.
Qed.

(** ** Errors of the constructor *)

Lemma init_raises (number : value) (e : exn) :
  PhoneNumber_init number = Raise e ->
  e = TypeError_number \/ e = ValueError_length \/ e = ValueError_code.
Proof.
  intros H.
  destruct (isinstance_str_int number) eqn:Hty;
    [|rewrite init_not_str_int in H by assumption; left; congruence].
  right.
  assert (exists body, length body = 10%nat /\
            PhoneNumber_init number = validate (fields (translate body))
          \/ PhoneNumber_init number = Raise ValueError_length)
    as (body & [[Hlen Hinit]|Hinit]).
  { destruct (Nat.eq_dec (length (re_sub_non_alnum (py_str number))) 10)
      as [H10|H10].
    - eexists. left. split; [exact H10 | now apply init_len10].
    - destruct (re_sub_non_alnum (py_str number)) as [|c body] eqn:Hclean.
      + exists []. right. apply init_bad_length; try assumption;
          rewrite Hclean; [discriminate | intros [[=] _]].
      + exists body.
        destruct (char_eqb_spec c (chr "1")) as [->|Hc];
          [destruct (Nat.eq_dec (length body) 10) as [Hb|Hb]|].
        * left. split; [assumption | now apply init_len11].
        * right. apply init_bad_length; try assumption; rewrite Hclean;
            [assumption | cbn; intros [[=] _]; contradiction].
        * right. apply init_bad_length; try assumption; rewrite Hclean;
            [assumption | cbn; intros [_ [=]]; contradiction]. }
  - rewrite Hinit in H.
    assert (Ht : length (translate body) = 10%nat)
      by now rewrite translate_length.
    destruct (fields_lengths _ Ht) as (Ha & He & _).
    destruct (validate_spec _ _ (line_number (fields (translate body))) Ha He)
      as [[_ Hr]|[_ Hok]];
      change (mkPhoneNumber _ _ _) with (fields (translate body)) in *;
      [right | ]; congruence.
  - left. congruence.
Qed.

(** ** Lines *)

Lemma split_length (sep : char) (s : str) :
  length (split sep s) = S (count_occ N.eq_dec s sep).
Proof.
  induction s as [|c s IH]; [reflexivity|]. cbn [split count_occ].
  unfold char_eqb. destruct (N.eqb_spec c sep) as [->|Hne].
  - destruct (N.eq_dec sep sep); [|contradiction]. cbn [length]. now rewrite IH.
  - destruct (N.eq_dec c sep); [contradiction|].
    destruct (split sep s); [discriminate | exact IH].
Qed.

Lemma read_line_bad (tup_list : list entry) (line : str) :
  length (split TAB (strip line)) <> 2%nat ->
  read_line tup_list line = Raise ValueError_unpack.
Proof.
  intros H. unfold read_line.
  destruct (split TAB (strip line)) as [|name [|number [|x fs]]];
    try reflexivity. now contradiction H.
Qed.

Lemma read_line_good (tup_list : list entry) (line : str) :
  length (split TAB (strip line)) = 2%nat ->
  exists name number,
    split TAB (strip line) = [name; number] /\
    ((exists p, PhoneNumber_init (VStr number) = Ok p /\
                read_line tup_list line = Ok (tup_list ++ [(name, p)])) \/
     ((exists e, PhoneNumber_init (VStr number) = Raise e) /\
      read_line tup_list line = Ok tup_list)).
Proof.
  intros H. unfold read_line.
  destruct (split TAB (strip line)) as [|name [|number [|x fs]]];
    try discriminate.
  exists name, number. split; [reflexivity|].
  destruct (PhoneNumber_init (VStr number)) as [p|e] eqn:E.
  - left. now exists p.
  - right. split; [now exists e|].
    destruct (init_raises _ _ E) as [->|[->| ->]]; reflexivity.
Qed.

Lemma for_lines_bad (lines : list str) (tup_list : list entry) :
  Exists (fun line => length (split TAB (strip line)) <> 2%nat) lines ->
  for_lines lines tup_list = Raise ValueError_unpack.
Proof.
  intros H. revert tup_list.
  induction lines as [|line rest IH]; intros tup_list; [inversion H|].
  cbn [for_lines].
  destruct (Nat.eq_dec (length (split TAB (strip line))) 2) as [Hl|Hl].
  - destruct (read_line_good tup_list line Hl)
      as (name & number & _ & [(p & _ & ->)|[_ ->]]); cbn [bind];
      apply IH; inversion H; subst; try contradiction; assumption.
  - now rewrite read_line_bad.
Qed.

(** C9.  A line that, stripped, does not split at tabs into exactly two
    fields makes [read_numbers] raise the error of the unpacking, a
    [ValueError] that no handler catches: no list is returned, whatever the
    other lines are. *)
Theorem malformed_line_raises (lines : list str) (line : str) :
  In line lines ->
  length (split TAB (strip line)) <> 2%nat ->
  read_numbers lines = Raise ValueError_unpack /\
  class_of ValueError_unpack = ValueError /\
  forall l, read_numbers lines <> Ok l.
Proof.
  intros Hin Hbad.
  assert (H : read_numbers lines = Raise ValueError_unpack).
  { unfold read_numbers. rewrite for_lines_bad; [reflexivity|].
    apply Exists_exists. now exists line. }
  repeat split; [exact H|]. intros l. rewrite H. discriminate.
Qed.

Lemma malformed_line_raises_witness :
  read_numbers [lit "Alice" ++ [TAB] ++ lit "212-555-0100" ++ [10];
                lit "Bob 202-555-0199" ++ [10];
                lit "Carol" ++ [TAB] ++ lit "303-555-0188" ++ [10]]
  = Raise ValueError_unpack /\
  class_of ValueError_unpack = ValueError /\
  forall l,
    read_numbers [lit "Alice" ++ [TAB] ++ lit "212-555-0100" ++ [10];
                  lit "Bob 202-555-0199" ++ [10];
                  lit "Carol" ++ [TAB] ++ lit "303-555-0188" ++ [10]]
    <> Ok l.
Proof.
  apply (malformed_line_raises _ (lit "Bob 202-555-0199" ++ [10])).
  - right. left. reflexivity.
  - discriminate.
Defined.

(** ** Sorting *)

Lemma lt_true (a b : entry) :
  PhoneNumber_lt (snd a) (snd b) = Ok true -> int_le a b.
Proof.
  unfold PhoneNumber_lt, int_le.
  destruct (PhoneNumber_int (snd a)) as [i|]; [|discriminate].
  destruct (PhoneNumber_int (snd b)) as [j|]; [|discriminate].
  cbn. intros [= H]. exists i, j. repeat split. apply Z.ltb_lt in H. lia.
Qed.

Lemma lt_false (a b : entry) :
  PhoneNumber_lt (snd a) (snd b) = Ok false -> int_le b a.
Proof.
  unfold PhoneNumber_lt, int_le.
  destruct (PhoneNumber_int (snd a)) as [i|]; [|discriminate].
  destruct (PhoneNumber_int (snd b)) as [j|]; [|discriminate].
  cbn. intros [= H]. exists j, i. repeat split. apply Z.ltb_ge in H. lia.
Qed.

Lemma lt_total (a b : entry) :
  has_int a -> has_int b -> exists c, PhoneNumber_lt (snd a) (snd b) = Ok c.
Proof.
  intros [i Hi] [j Hj]. unfold PhoneNumber_lt. rewrite Hi, Hj. cbn. eauto.
Qed.

Section Insertion.

Variable x : entry.

Lemma insert_HdRel (y : entry) (sorted r : list entry) :
  insert x sorted = Ok r ->
  int_le y x -> HdRel int_le y sorted -> HdRel int_le y r.
Proof.
  intros Hins Hyx Hhd. destruct sorted as [|z rest]; cbn in Hins.
  - injection Hins as <-. now constructor.
  - destruct (PhoneNumber_lt (snd x) (snd z)) as [[|]|] eqn:E;
      cbn in Hins; try discriminate.
    + injection Hins as <-. now constructor.
    + destruct (insert x rest); cbn in Hins; [|discriminate].
      injection Hins as <-. inversion Hhd; subst. now constructor.
Qed.

Lemma insert_Sorted (sorted r : list entry) :
  insert x sorted = Ok r -> Sorted int_le sorted -> Sorted int_le r.
Proof.
  revert r. induction sorted as [|y rest IH]; intros r Hins Hs; cbn in Hins.
  - injection Hins as <-. repeat constructor.
  - destruct (PhoneNumber_lt (snd x) (snd y)) as [[|]|] eqn:E;
      cbn in Hins; try discriminate.
    + injection Hins as <-. constructor; [assumption|].
      constructor. now apply lt_true.
    + destruct (insert x rest) as [r'|] eqn:E'; cbn in Hins; [|discriminate].
      injection Hins as <-. inversion Hs; subst.
      constructor; [now apply IH|].
      eapply insert_HdRel; [exact E' | now apply lt_false | assumption].
Qed.

Lemma insert_Permutation (sorted r : list entry) :
  insert x sorted = Ok r -> Permutation (x :: sorted) r.
Proof.
  revert r. induction sorted as [|y rest IH]; intros r Hins; cbn in Hins.
  - injection Hins as <-. reflexivity.
  - destruct (PhoneNumber_lt (snd x) (snd y)) as [[|]|];
      cbn in Hins; try discriminate.
    + injection Hins as <-. reflexivity.
    + destruct (insert x rest) as [r'|]; cbn in Hins; [|discriminate].
      injection Hins as <-. rewrite perm_swap. now rewrite (IH r').
Qed.

Lemma insert_total (sorted : list entry) :
  has_int x -> Forall has_int sorted -> exists r, insert x sorted = Ok r.
Proof.
  intros Hx Hs. induction Hs as [|y rest Hy _ [r IH]]; cbn.
  - eauto.
  - destruct (lt_total x y Hx Hy) as [[|] ->]; cbn; [eauto|].
    rewrite IH. cbn. eauto.
Qed.

End Insertion.

Lemma sort_from_Sorted (l sorted r : list entry) :
  sort_from l sorted = Ok r -> Sorted int_le sorted -> Sorted int_le r.
Proof.
  revert sorted. induction l as [|x l IH]; intros sorted H Hs; cbn in H.
  - now injection H as <-.
  - destruct (insert x sorted) as [s|] eqn:E; cbn in H; [|discriminate].
    apply (IH s H). now apply (insert_Sorted x sorted).
Qed.

Lemma sort_from_Permutation (l sorted r : list entry) :
  sort_from l sorted = Ok r -> Permutation (l ++ sorted) r.
Proof.
  revert sorted. induction l as [|x l IH]; intros sorted H; cbn in H.
  - now injection H as <-.
  - destruct (insert x sorted) as [s|] eqn:E; cbn in H; [|discriminate].
    rewrite <- (IH s H). cbn. rewrite <- (insert_Permutation x sorted s E).
    apply Permutation_middle.
Qed.

Lemma sort_from_total (l sorted : list entry) :
  Forall has_int l -> Forall has_int sorted ->
  exists r, sort_from l sorted = Ok r.
Proof.
  intros Hl. revert sorted. induction Hl as [|x l Hx _ IH]; intros sorted Hs; cbn.
  - eauto.
  - destruct (insert_total x sorted Hx Hs) as [s E]. rewrite E. cbn.
    apply IH. eapply Permutation_Forall.
    + apply (insert_Permutation x sorted s E).
    + now constructor.
Qed.

Lemma Sorted_adjacent (l : list entry) :
  Sorted int_le l ->
  forall i a b,
    nth_error l i = Some a -> nth_error l (S i) = Some b -> int_le a b.
Proof.
  induction 1 as [|x l Hs IH Hhd]; intros i a b Ha Hb.
  - destruct i; discriminate.
  - destruct i as [|i]; cbn in Ha, Hb.
    + injection Ha as <-. destruct l; [discriminate|].
      injection Hb as <-. now inversion Hhd.
    + now apply (IH i).
Qed.

(** C7.  In a list that [read_numbers] returns, of every two adjacent
    entries the first has an integer not above that of the second. *)
Theorem read_numbers_sorted (lines : list str) (l : list entry) :
  read_numbers lines = Ok l ->
  forall i a b,
    nth_error l i = Some a -> nth_error l (S i) = Some b ->
    exists x y,
      PhoneNumber_int (snd a) = Ok x /\ PhoneNumber_int (snd b) = Ok y /\
      (x <= y)%Z.
Proof.
  intros H. unfold read_numbers in H.
  apply bind_Ok in H. destruct H as (tup_list & _ & Hsort).
  apply Sorted_adjacent. apply (sort_from_Sorted tup_list [] l Hsort).
  constructor.
Qed.

Lemma read_numbers_sorted_witness :
  read_numbers
    [ lit "Alice" ++ [TAB] ++ lit "212-555-0100" ++ [10];
      lit "Carol" ++ [TAB] ++ lit "303-555-0188" ++ [10];
      lit "Eve" ++ [TAB] ++ lit "123-456-7890" ++ [10];
      lit "Bob" ++ [TAB] ++ lit "(202) 555-0199" ]
  = Ok [ (lit "Bob", mkPhoneNumber (lit "202") (lit "555") (lit "0199"));
         (lit "Alice", mkPhoneNumber (lit "212") (lit "555") (lit "0100"));
         (lit "Carol", mkPhoneNumber (lit "303") (lit "555") (lit "0188")) ]
  /\
  exists x y,
    PhoneNumber_int (mkPhoneNumber (lit "212") (lit "555") (lit "0100")) = Ok x /\
    PhoneNumber_int (mkPhoneNumber (lit "303") (lit "555") (lit "0188")) = Ok y /\
    (x <= y)%Z.
Proof.
  split; [reflexivity|].
  apply (read_numbers_sorted
           [ lit "Alice" ++ [TAB] ++ lit "212-555-0100" ++ [10];
             lit "Carol" ++ [TAB] ++ lit "303-555-0188" ++ [10];
             lit "Eve" ++ [TAB] ++ lit "123-456-7890" ++ [10];
             lit "Bob" ++ [TAB] ++ lit "(202) 555-0199" ]
           [ (lit "Bob", mkPhoneNumber (lit "202") (lit "555") (lit "0199"));
             (lit "Alice", mkPhoneNumber (lit "212") (lit "555") (lit "0100"));
             (lit "Carol", mkPhoneNumber (lit "303") (lit "555") (lit "0188")) ]
           eq_refl 1%nat
           (lit "Alice", mkPhoneNumber (lit "212") (lit "555") (lit "0100"))
           (lit "Carol", mkPhoneNumber (lit "303") (lit "555") (lit "0188"))
           eq_refl eq_refl).
Defined.

(** ** When [read_numbers] returns *)

Lemma init_has_int (name number : str) (p : PhoneNumber) :
  Forall (fun c => is_lower c = false) number ->
  PhoneNumber_init (VStr number) = Ok p -> has_int (name, p).
Proof.
  intros Hlow H.
  assert (Hc : Forall (fun c => is_lower c = false)
                      (re_sub_non_alnum (py_str (VStr number)))).
  { apply Forall_forall. intros c Hin. apply filter_In in Hin.
    rewrite Forall_forall in Hlow. now apply Hlow. }
  destruct (init_fields_digits _ _ H Hc) as (Hd & _).
  destruct (init_fields_alnum _ _ H) as ((Ha & _) & _).
  exists (decimal_value (area_code p ++ exchange_code p ++ line_number p)).
  apply py_int_digits; [|assumption].
  destruct (area_code p); discriminate.
Qed.

Lemma for_lines_plain (lines : list str) (tup_list : list entry) :
  Forall plain_line lines -> Forall has_int tup_list ->
  exists t, for_lines lines tup_list = Ok t /\ Forall has_int t.
Proof.
  intros Hl. revert tup_list.
  induction Hl as [|line rest (name & number & Hsplit & Hlow) _ IH];
    intros tup_list Ht; cbn [for_lines].
  - eauto.
  - destruct (read_line_good tup_list line) as (name' & number' & E & Hcases);
      [now rewrite Hsplit|].
    rewrite Hsplit in E. injection E as <- <-.
    destruct Hcases as [(p & Hp & ->)|[_ ->]]; cbn [bind]; apply IH.
    + apply Forall_app. split; [assumption|].
      constructor; [|constructor]. now apply (init_has_int name number).
    + assumption.
Qed.

(** On plain lines [read_numbers] returns a list. *)
Lemma read_numbers_returns (lines : list str) :
  Forall plain_line lines -> exists l, read_numbers lines = Ok l.
Proof.
  intros H. unfold read_numbers.
  destruct (for_lines_plain lines [] H (Forall_nil _)) as (t & -> & Ht).
  cbn [bind]. apply sort_from_total; [assumption | constructor].
Qed.

(** The list returned holds the entries collected from the lines, each
    once. *)
Lemma read_numbers_Permutation (lines : list str) (l : list entry) :
  read_numbers lines = Ok l ->
  exists tup_list, for_lines lines [] = Ok tup_list /\ Permutation tup_list l.
Proof.
  intros H. unfold read_numbers in H. apply bind_Ok in H.
  destruct H as (t & Ht & Hs). exists t. split; [assumption|].
  rewrite <- (sort_from_Permutation t [] l Hs). now rewrite app_nil_r.
Qed.

(** * Further properties *)

(** ** Decimal digits *)

Lemma digits_of_uint_digits (d : Decimal.uint) :
  Forall (fun c => is_digit c = true) (digits_of_uint d).
Proof. induction d; constructor; (reflexivity || assumption). Qed.

Lemma fold_digits_acc (d : Decimal.uint) (acc : positive) :
  fold_left (fun a c => (10 * a + digit_value c)%Z) (digits_of_uint d)
            (Zpos acc)
  = Zpos (Pos.of_uint_acc d acc).
Proof.
  revert acc. induction d; intros acc; [reflexivity|..];
    cbn [digits_of_uint NilEmpty.string_of_uint lit list_ascii_of_string
         map fold_left Pos.of_uint_acc];
    fold (lit (NilEmpty.string_of_uint d)); fold (digits_of_uint d);
    rewrite <- IHd; f_equal;
    try match goal with
        | |- context [digit_value ?c] =>
            let v := eval vm_compute in (digit_value c) in
            change (digit_value c) with v
        end; lia.
Qed.

Lemma decimal_value_of_uint (d : Decimal.uint) :
  decimal_value (digits_of_uint d) = Z.of_uint d.
Proof.
  unfold decimal_value, Z.of_uint.
  induction d; [reflexivity| |..];
    cbn [digits_of_uint NilEmpty.string_of_uint lit list_ascii_of_string
         map fold_left Pos.of_uint];
    fold (lit (NilEmpty.string_of_uint d)); fold (digits_of_uint d).
  - exact IHd.
  - apply (fold_digits_acc d 1).
  - apply (fold_digits_acc d 2).
  - apply (fold_digits_acc d 3).
  - apply (fold_digits_acc d 4).
  - apply (fold_digits_acc d 5).
  - apply (fold_digits_acc d 6).
  - apply (fold_digits_acc d 7).
  - apply (fold_digits_acc d 8).
  - apply (fold_digits_acc d 9).
Qed.

Lemma digit_cases (c : char) :
  is_digit c = true ->
  c = 48 \/ c = 49 \/ c = 50 \/ c = 51 \/ c = 52 \/ c = 53 \/ c = 54 \/
  c = 55 \/ c = 56 \/ c = 57.
Proof. intros H. to_bounds. lia. Qed.

Lemma digits_of_uint_of_digits (s : str) :
  Forall (fun c => is_digit c = true) s ->
  digits_of_uint (uint_of_digits s) = s.
Proof.
  induction 1 as [|c s Hc _ IH]; [reflexivity|].
  cbn [uint_of_digits].
  destruct (digit_cases c Hc) as [->|[->|[->|[->|[->|[->|[->|[->|[->| ->]]]]]]]]];
    cbn [uint_digit N.eqb Pos.eqb];
    unfold digits_of_uint in *; cbn [NilEmpty.string_of_uint lit
      list_ascii_of_string map]; fold (lit (NilEmpty.string_of_uint (uint_of_digits s)));
    rewrite IH; reflexivity.
Qed.

Lemma digits_alnum (s : str) :
  Forall (fun c => is_digit c = true) s ->
  Forall (fun c => is_alnum c = true) s.
Proof.
  intros H. eapply Forall_impl; [|exact H].
  intros c Hc. unfold is_alnum. now rewrite Hc.
Qed.

Lemma digits_field_chars (s : str) :
  Forall (fun c => is_digit c = true) s ->
  Forall (fun c => is_field_char c = true) s.
Proof.
  intros H. eapply Forall_impl; [|exact H].
  intros c Hc. unfold is_field_char. now rewrite Hc.
Qed.

(** The cleaned [str(z)] is the digits of [|z|]. *)
Lemma clean_str_of_int (z : Z) :
  exists d,
    re_sub_non_alnum (str_of_int z) = digits_of_uint d /\
    Z.of_uint d = Z.abs z.
Proof.
  assert (Hpos : forall q,
             lit (NilZero.string_of_uint (Pos.to_uint q))
             = digits_of_uint (Pos.to_uint q)).
  { intros q. unfold digits_of_uint.
    pose proof (DecimalPos.Unsigned.to_uint_nonnil q) as Hn.
    destruct (Pos.to_uint q); [contradiction|..]; reflexivity. }
  assert (Hval : forall q, Z.of_uint (Pos.to_uint q) = Zpos q).
  { intros q. unfold Z.of_uint. now rewrite DecimalPos.Unsigned.of_to. }
  destruct z as [|q|q].
  - exists (Decimal.D0 Decimal.Nil). split; reflexivity.
  - exists (Pos.to_uint q). split; [|apply Hval].
    unfold str_of_int. cbn [Z.to_int NilZero.string_of_int]. rewrite Hpos.
    apply clean_fixed, digits_alnum, digits_of_uint_digits.
  - exists (Pos.to_uint q). split; [|apply Hval].
    unfold str_of_int. cbn [Z.to_int NilZero.string_of_int].
    change (lit (String "-" (NilZero.string_of_uint (Pos.to_uint q))))
      with (chr "-" :: lit (NilZero.string_of_uint (Pos.to_uint q))).
    rewrite Hpos.
    change (re_sub_non_alnum (chr "-" :: digits_of_uint (Pos.to_uint q)))
      with (re_sub_non_alnum (digits_of_uint (Pos.to_uint q))).
    apply clean_fixed, digits_alnum, digits_of_uint_digits.
Qed.

Lemma clean_str_of_int_value (z : Z) :
  Forall (fun c => is_digit c = true) (re_sub_non_alnum (str_of_int z)) /\
  decimal_value (re_sub_non_alnum (str_of_int z)) = Z.abs z.
Proof.
  destruct (clean_str_of_int z) as (d & -> & Hd). split.
  - apply digits_of_uint_digits.
  - now rewrite decimal_value_of_uint.
Qed.

(** A digit string that does not start with ['0'] is the [str()] of the
    integer it denotes. *)
Lemma str_of_int_decimal_value (c : char) (s : str) :
  Forall (fun c => is_digit c = true) (c :: s) -> c <> chr "0" ->
  str_of_int (decimal_value (c :: s)) = c :: s.
Proof.
  intros Hd Hc.
  rewrite <- (digits_of_uint_of_digits (c :: s) Hd) at 1.
  rewrite decimal_value_of_uint.
  change (Z.of_uint (uint_of_digits (c :: s)))
    with (Z.of_int (Decimal.Pos (uint_of_digits (c :: s)))).
  unfold str_of_int. rewrite DecimalZ.to_of.
  cbn [Decimal.norm NilZero.string_of_int].
  assert (Hn : Decimal.unorm (uint_of_digits (c :: s))
               = uint_of_digits (c :: s)).
  { cbn [uint_of_digits]. inversion Hd as [|? ? Hc0 _]; subst.
    change (chr "0") with 48 in Hc.
    destruct (digit_cases c Hc0) as [->|[->|[->|[->|[->|[->|[->|[->|[->| ->]]]]]]]]];
      [contradiction|..]; reflexivity. }
  rewrite Hn.
  rewrite <- (digits_of_uint_of_digits (c :: s) Hd) at 2.
  unfold digits_of_uint. f_equal.
  cbn [uint_of_digits]. inversion Hd as [|? ? Hc0 _]; subst.
  destruct (digit_cases c Hc0) as [->|[->|[->|[->|[->|[->|[->|[->|[->| ->]]]]]]]]];
    reflexivity.
Qed.

(** ** The value of a digit string *)

Lemma fold_digits_shift (s : str) (acc : Z) :
  fold_left (fun a c => (10 * a + digit_value c)%Z) s acc
  = (acc * 10 ^ Z.of_nat (length s) + decimal_value s)%Z.
Proof.
  unfold decimal_value. revert acc.
  induction s as [|c s IH]; intros acc.
  - cbn. lia.
  - cbn [fold_left length]. rewrite IH, (IH (10 * 0 + digit_value c)%Z).
    rewrite Nat2Z.inj_succ, Z.pow_succ_r by lia. ring.
Qed.

Lemma decimal_value_cons (c : char) (s : str) :
  decimal_value (c :: s)
  = (digit_value c * 10 ^ Z.of_nat (length s) + decimal_value s)%Z.
Proof.
  unfold decimal_value at 1. cbn [fold_left]. rewrite fold_digits_shift.
  ring.
Qed.

Lemma digit_value_range (c : char) :
  is_digit c = true -> (0 <= digit_value c <= 9)%Z.
Proof. intros H. unfold digit_value. to_bounds. lia. Qed.

Lemma decimal_value_bound (s : str) :
  Forall (fun c => is_digit c = true) s ->
  (0 <= decimal_value s < 10 ^ Z.of_nat (length s))%Z.
Proof.
  induction 1 as [|c s Hc _ IH].
  - cbn. lia.
  - rewrite decimal_value_cons. cbn [length].
    rewrite Nat2Z.inj_succ, Z.pow_succ_r by lia.
    pose proof (digit_value_range c Hc). nia.
Qed.

Lemma decimal_value_inj (s t : str) :
  length s = length t ->
  Forall (fun c => is_digit c = true) s ->
  Forall (fun c => is_digit c = true) t ->
  decimal_value s = decimal_value t -> s = t.
Proof.
  intros Hlen Hs. revert t Hlen.
  induction Hs as [|c s Hc Hs IH]; intros [|d t] Hlen Ht Hv;
    try discriminate; [reflexivity|].
  injection Hlen as Hlen. inversion Ht as [|? ? Hd Ht']; subst.
  rewrite !decimal_value_cons, <- Hlen in Hv.
  pose proof (decimal_value_bound s Hs) as Bs.
  pose proof (decimal_value_bound t Ht') as Bt. rewrite <- Hlen in Bt.
  pose proof (digit_value_range c Hc). pose proof (digit_value_range d Hd).
  assert (digit_value c = digit_value d) as Hcd by nia.
  assert (decimal_value s = decimal_value t) as Hst by nia.
  f_equal.
  - unfold digit_value in Hcd. lia.
  - now apply IH.
Qed.

Lemma py_int_Ok (s : str) (i : Z) :
  py_int s = Ok i ->
  s <> [] /\ Forall (fun c => is_digit c = true) s /\ i = decimal_value s.
Proof.
  intros H.
  assert (Hs : s <> []) by (intros ->; discriminate).
  split; [assumption|].
  assert (Hd : Forall (fun c => is_digit c = true) s).
  { apply Forall_forall. intros c Hin.
    destruct (is_digit c) eqn:E; [reflexivity|]. exfalso.
    assert (Hex : Exists (fun c => is_digit c = false) s)
      by (apply Exists_exists; eauto).
    unfold py_int in H. rewrite (int_digits_letter s 0 Hex) in H.
    destruct s; discriminate. }
  split; [assumption|].
  rewrite (py_int_digits s Hs Hd) in H. congruence.
Qed.

(** ** The constructor: what it ignores and what it builds *)

Lemma clean_junk (junk : str) :
  Forall (fun c => is_alnum c = false) junk -> re_sub_non_alnum junk = [].
Proof.
  unfold re_sub_non_alnum. induction 1 as [|c s Hc _ IH]; cbn; [reflexivity|].
  now rewrite Hc.
Qed.

Lemma init_same_clean (v w : value) :
  isinstance_str_int v = true -> isinstance_str_int w = true ->
  re_sub_non_alnum (py_str v) = re_sub_non_alnum (py_str w) ->
  PhoneNumber_init v = PhoneNumber_init w.
Proof.
  intros Hv Hw E. unfold PhoneNumber_init. now rewrite Hv, Hw, E.
Qed.

(** X1.  Characters that are no ASCII letters or digits count for nothing,
    wherever they stand in the string: with or without them the constructor
    has the same outcome. *)
Theorem punctuation_ignored (s1 junk s2 : str) :
  Forall (fun c => is_alnum c = false) junk ->
  PhoneNumber_init (VStr (s1 ++ junk ++ s2)) = PhoneNumber_init (VStr (s1 ++ s2)).
Proof.
  intros H. apply init_same_clean; try reflexivity.
  cbn [py_str]. rewrite !clean_app, (clean_junk junk H). reflexivity.
Qed.

Lemma punctuation_ignored_witness :
  PhoneNumber_init (VStr (lit "(212" ++ lit ") " ++ lit "555-0100"))
  = PhoneNumber_init (VStr (lit "(212" ++ lit "555-0100")).
Proof.
  apply (punctuation_ignored (lit "(212") (lit ") ") (lit "555-0100")).
  repeat constructor.
Defined.

(** A constructed number is cut from its own ten characters. *)
Lemma init_Ok_canonical (number : value) (p : PhoneNumber) :
  PhoneNumber_init number = Ok p ->
  length (area_code p ++ exchange_code p ++ line_number p) = 10%nat /\
  Forall (fun c => is_field_char c = true)
         (area_code p ++ exchange_code p ++ line_number p) /\
  p = fields (area_code p ++ exchange_code p ++ line_number p) /\
  validate p = Ok p.
Proof.
  intros H. destruct (init_Ok_inv _ _ H) as (body & Hlen & Hbody & Hp & Hval).
  subst p. rewrite fields_concat.
  split; [now rewrite translate_length|].
  split; [apply translate_field_chars; now apply (init_body_alnum number)|].
  split; [reflexivity | exact Hval].
Qed.

(** Any string or integer whose cleaned text is the ten characters of a
    constructed number gives that number again. *)
Lemma renormalize (number w : value) (p : PhoneNumber) :
  PhoneNumber_init number = Ok p ->
  isinstance_str_int w = true ->
  re_sub_non_alnum (py_str w)
  = area_code p ++ exchange_code p ++ line_number p ->
  PhoneNumber_init w = Ok p.
Proof.
  intros H Hw Hclean.
  destruct (init_Ok_canonical _ _ H) as (Hlen & Hf & Hp & Hval).
  rewrite init_len10; rewrite ?Hclean; try assumption.
  now rewrite (translate_fixed _ Hf), <- Hp.
Qed.

(** X2.  Every constructed number has an area code of three characters, an
    exchange code of three and a line number of four, each character a digit
    or a lower-case letter (no capital, no punctuation), and its display
    string has fourteen characters. *)
Theorem constructed_shape (number : value) (p : PhoneNumber) :
  PhoneNumber_init number = Ok p ->
  length (area_code p) = 3%nat /\ length (exchange_code p) = 3%nat /\
  length (line_number p) = 4%nat /\
  Forall (fun c => is_digit c = true \/ is_lower c = true)
         (area_code p ++ exchange_code p ++ line_number p) /\
  length (PhoneNumber_str p) = 14%nat.
Proof.
  intros H. destruct (init_fields_alnum _ _ H) as ((Ha & He & Hl) & Hf).
  repeat split; try assumption.
  - eapply Forall_impl; [|exact Hf]. intros c Hc.
    now apply orb_true_iff in Hc.
  - unfold PhoneNumber_str. rewrite !length_app, Ha, He, Hl. reflexivity.
Qed.

Lemma constructed_shape_witness :
  length (lit "800") = 3%nat /\ length (lit "356") = 3%nat /\
  length (lit "9377") = 4%nat /\
  Forall (fun c => is_digit c = true \/ is_lower c = true)
         (lit "800" ++ lit "356" ++ lit "9377") /\
  length (lit "(800) 356-9377") = 14%nat.
Proof.
  apply (constructed_shape (VStr (lit "1-800-FLOWERS"))
           (mkPhoneNumber (lit "800") (lit "356") (lit "9377"))).
  reflexivity.
Defined.

Lemma first_digit_value (c : char) (s : str) :
  Forall (fun c => is_digit c = true) (c :: s) -> length s = 9%nat ->
  chr "2" <= c ->
  (2000000000 <= decimal_value (c :: s) <= 9999999999)%Z.
Proof.
  intros Hd Hlen Hc. inversion Hd as [|? ? Hc0 Hs]; subst.
  rewrite decimal_value_cons. pose proof (decimal_value_bound s Hs) as B.
  rewrite Hlen in *. change (10 ^ Z.of_nat 9)%Z with 1000000000%Z in *.
  change (chr "2") with 50 in Hc. unfold digit_value. to_bounds. lia.
Qed.

(** X3.  When the cleaned input has no lower-case letter, the constructed
    number holds digits only, both codes start with a digit from 2 to 9, and
    [int()] returns an integer from 2000000000 to 9999999999. *)
Theorem digits_without_lowercase (number : value) (p : PhoneNumber) :
  PhoneNumber_init number = Ok p ->
  Forall (fun c => is_lower c = false) (re_sub_non_alnum (py_str number)) ->
  Forall (fun c => is_digit c = true)
         (area_code p ++ exchange_code p ++ line_number p) /\
  first_digit_2_to_9 (area_code p) /\ first_digit_2_to_9 (exchange_code p) /\
  exists i, PhoneNumber_int p = Ok i /\ (2000000000 <= i <= 9999999999)%Z.
Proof.
  intros H Hlow.
  destruct (init_fields_digits _ _ H Hlow) as (Hd & Ha & He).
  destruct (init_Ok_canonical _ _ H) as (Hlen & _).
  repeat split; try assumption.
  destruct Ha as (c & rest & Ea & Hc2 & _).
  exists (decimal_value (area_code p ++ exchange_code p ++ line_number p)).
  split.
  - apply py_int_digits; [|assumption]. rewrite Ea. discriminate.
  - rewrite Ea in *. cbn [app] in *. apply first_digit_value; try assumption.
    cbn [length] in Hlen. lia.
Qed.

Lemma digits_without_lowercase_witness :
  Forall (fun c => is_digit c = true) (lit "800" ++ lit "356" ++ lit "9377") /\
  first_digit_2_to_9 (lit "800") /\ first_digit_2_to_9 (lit "356") /\
  exists i,
    PhoneNumber_int (mkPhoneNumber (lit "800") (lit "356") (lit "9377")) = Ok i /\
    (2000000000 <= i <= 9999999999)%Z.
Proof.
  apply (digits_without_lowercase (VStr (lit "1-800-FLOWERS"))
           (mkPhoneNumber (lit "800") (lit "356") (lit "9377"))).
  - reflexivity.
  - repeat constructor.
Defined.

(** X4.  [int()] of a constructed number raises [ValueError] exactly when
    the cleaned input has a lower-case letter. *)
Theorem int_raises_iff_lowercase (number : value) (p : PhoneNumber) :
  PhoneNumber_init number = Ok p ->
  (PhoneNumber_int p = Raise ValueError_int <->
   Exists (fun c => is_lower c = true) (re_sub_non_alnum (py_str number))).
Proof.
  intros H. split.
  - intros Hr.
    destruct (Exists_dec (fun c => is_lower c = true)
                (re_sub_non_alnum (py_str number))) as [Hex|Hnex];
      [intros c; destruct (is_lower c); [now left | now right]
      | assumption |].
    exfalso. apply Forall_Exists_neg in Hnex.
    assert (Hlow : Forall (fun c => is_lower c = false)
                          (re_sub_non_alnum (py_str number))).
    { eapply Forall_impl; [|exact Hnex]. intros c Hc.
      now apply not_true_is_false. }
    destruct (init_has_int [] (re_sub_non_alnum (py_str number)) p) as [i Hi].
    + assumption.
    + rewrite <- H. apply init_same_clean; try reflexivity.
      * destruct number; try reflexivity.
        rewrite init_not_str_int in H by reflexivity. discriminate.
      * cbn [py_str]. apply clean_idem.
    + cbn [snd] in Hi. congruence.
  - intros Hex.
    destruct (init_Ok_inv _ _ H) as (body & Hlen & Hbody & -> & _).
    assert (Hb : Exists (fun c => is_lower c = true) body).
    { destruct Hbody as [E|E]; rewrite E in Hex; [assumption|].
      inversion Hex as [? ? Hc|]; subst; [discriminate Hc | assumption]. }
    unfold PhoneNumber_int. rewrite fields_concat.
    assert (Ht : Exists (fun c => is_digit c = false) (translate body)).
    { rewrite translate_map. apply Exists_exists in Hb.
      destruct Hb as (c & Hin & Hc). apply Exists_exists. exists c. split.
      - apply in_map_iff. exists c. split; [|assumption].
        now apply translate_char_lower.
      - to_bounds. apply andb_false_iff. right. apply N.leb_gt. lia. }
    unfold py_int. rewrite (int_digits_letter _ 0 Ht).
    destruct (translate body); reflexivity.
Qed.

Lemma int_raises_iff_lowercase_witness :
  PhoneNumber_int (mkPhoneNumber (lit "212") (lit "555") (lit "abcd"))
  = Raise ValueError_int <->
  Exists (fun c => is_lower c = true) (lit "212555abcd").
Proof.
  apply (int_raises_iff_lowercase (VStr (lit "(212) 555-abcd"))
           (mkPhoneNumber (lit "212") (lit "555") (lit "abcd"))).
  reflexivity.
Defined.

(** X5.  The table has an entry for every capital letter, the digit of its
    key on a telephone keypad, and for no other character. *)
Theorem keypad_table (c : char) :
  dict_get LETTER_TO_NUMBER c
  = if is_upper c then Some (keypad_digit c) else None.
Proof.
  destruct (is_upper c) eqn:Hu; [|now apply dict_get_not_upper].
  to_bounds. unfold keypad_digit.
  dict_cases c; try (subst c; reflexivity).
  exfalso.
  repeat match goal with
  | H : c <> chr ?a |- _ =>
      let k := eval vm_compute in (chr a) in change (chr a) with k in H
  end.
  lia.
Qed.

(** ** Integers and constructed numbers *)

Lemma constructed_first_not_zero (number : value) (p : PhoneNumber) :
  PhoneNumber_init number = Ok p ->
  exists c s,
    area_code p ++ exchange_code p ++ line_number p = c :: s /\
    c <> chr "0".
Proof.
  intros H.
  destruct (init_fields_alnum _ _ H) as ((Ha & He & _) & _).
  destruct (init_Ok_canonical _ _ H) as (_ & _ & _ & Hval).
  destruct (length3 _ Ha) as (a0 & a1 & a2 & Ea).
  exists a0, ([a1; a2] ++ exchange_code p ++ line_number p).
  split; [now rewrite Ea|].
  intros ->.
  destruct (validate_spec (area_code p) (exchange_code p) (line_number p) Ha He)
    as [[_ Hr]|[Hn _]].
  - destruct p; cbn in *. congruence.
  - apply Hn. left. exists [a1; a2]. left. exact Ea.
Qed.

Lemma constructed_int_text (number : value) (p : PhoneNumber) (i : Z) :
  PhoneNumber_init number = Ok p -> PhoneNumber_int p = Ok i ->
  Forall (fun c => is_digit c = true)
         (area_code p ++ exchange_code p ++ line_number p) /\
  i = decimal_value (area_code p ++ exchange_code p ++ line_number p) /\
  str_of_int i = area_code p ++ exchange_code p ++ line_number p.
Proof.
  intros H Hi. apply py_int_Ok in Hi. destruct Hi as (_ & Hd & ->).
  split; [assumption|]. split; [reflexivity|].
  destruct (constructed_first_not_zero _ _ H) as (c & s & E & Hc).
  rewrite E in *. now apply str_of_int_decimal_value.
Qed.

(** X6.  The integer of a constructed number gives the same number back:
    [PhoneNumber(int(p))] has the attributes of [p]. *)
Theorem int_round_trip (number : value) (p : PhoneNumber) (i : Z) :
  PhoneNumber_init number = Ok p ->
  PhoneNumber_int p = Ok i ->
  PhoneNumber_init (VInt i) = Ok p.
Proof.
  intros H Hi. destruct (constructed_int_text _ _ _ H Hi) as (Hd & _ & Hs).
  apply (renormalize number); [assumption | reflexivity |].
  cbn [py_str]. rewrite Hs. apply clean_fixed. now apply digits_alnum.
Qed.

Lemma int_round_trip_witness :
  PhoneNumber_init (VInt 8003569377)
  = Ok (mkPhoneNumber (lit "800") (lit "356") (lit "9377")).
Proof.
  apply (int_round_trip (VStr (lit "1-800-FLOWERS"))
           (mkPhoneNumber (lit "800") (lit "356") (lit "9377")) 8003569377);
    reflexivity.
Defined.

(** X7.  The integer of a number constructed from the integer [z] is
    [abs z] modulo 10^10: the sign is dropped, and so is the leading 1 of
    an integer of eleven digits. *)
Theorem accepted_integer_value (z : Z) (p : PhoneNumber) :
  PhoneNumber_init (VInt z) = Ok p ->
  PhoneNumber_int p = Ok (Z.abs z mod 10 ^ 10)%Z.
Proof.
  intros H.
  destruct (init_Ok_inv _ _ H) as (body & Hlen & Hbody & -> & _).
  cbn [py_str] in Hbody.
  destruct (clean_str_of_int_value z) as (Hd & Hv).
  assert (Hb : Forall (fun c => is_digit c = true) body)
    by (destruct Hbody as [E|E]; rewrite E in Hd;
        [assumption | now inversion Hd]).
  unfold PhoneNumber_int. rewrite fields_concat.
  rewrite (translate_fixed body (digits_field_chars body Hb)).
  rewrite py_int_digits; [|intros ->; discriminate | assumption].
  f_equal. pose proof (decimal_value_bound body Hb) as B.
  rewrite Hlen in B. change (Z.of_nat 10) with 10%Z in B.
  destruct Hbody as [E|E]; rewrite E in Hv.
  - rewrite <- Hv. symmetry. now apply Z.mod_small.
  - rewrite <- Hv, decimal_value_cons, Hlen.
    change (Z.of_nat 10) with 10%Z.
    change (digit_value (chr "1")) with 1%Z.
    rewrite Z.add_comm, Z_mod_plus_full. symmetry. now apply Z.mod_small.
Qed.

Lemma accepted_integer_value_witness :
  PhoneNumber_int (mkPhoneNumber (lit "212") (lit "555") (lit "0100"))
  = Ok (Z.abs (-12125550100) mod 10 ^ 10)%Z.
Proof.
  apply (accepted_integer_value (-12125550100)
           (mkPhoneNumber (lit "212") (lit "555") (lit "0100"))).
  reflexivity.
Defined.

(** ** Ordering, display and validation *)

Lemma lt_of_ints (p q : PhoneNumber) (i j : Z) :
  PhoneNumber_int p = Ok i -> PhoneNumber_int q = Ok j ->
  PhoneNumber_lt p q = Ok (i <? j)%Z.
Proof. intros Hi Hj. unfold PhoneNumber_lt. now rewrite Hi, Hj. Qed.

(** X8.  Two constructed numbers have the same integer exactly when their
    three attributes are equal; otherwise one of them is less than the
    other under [<]. *)
Theorem equal_int_iff_equal_attributes
  (n1 n2 : value) (p q : PhoneNumber) (i j : Z) :
  PhoneNumber_init n1 = Ok p -> PhoneNumber_init n2 = Ok q ->
  PhoneNumber_int p = Ok i -> PhoneNumber_int q = Ok j ->
  (i = j <-> p = q) /\
  (PhoneNumber_lt p q = Ok false /\ PhoneNumber_lt q p = Ok false <-> p = q) /\
  (PhoneNumber_lt p q = Ok true \/ p = q \/ PhoneNumber_lt q p = Ok true).
Proof.
  intros Hp Hq Hi Hj.
  assert (Hinj : i = j -> p = q).
  { intros ->.
    destruct (init_Ok_canonical _ _ Hp) as (Lp & _ & Ep & _).
    destruct (init_Ok_canonical _ _ Hq) as (Lq & _ & Eq & _).
    destruct (py_int_Ok _ _ Hi) as (_ & Dp & Vp).
    destruct (py_int_Ok _ _ Hj) as (_ & Dq & Vq).
    rewrite Ep, Eq. f_equal.
    apply decimal_value_inj; congruence. }
  assert (Heq : p = q -> i = j) by (intros ->; congruence).
  rewrite (lt_of_ints p q i j Hi Hj), (lt_of_ints q p j i Hj Hi).
  split; [split; assumption|]. split.
  - split.
    + intros [[= H1] [= H2]]. apply Hinj.
      apply Z.ltb_ge in H1. apply Z.ltb_ge in H2. lia.
    + intros E. rewrite (Heq E), Z.ltb_irrefl. now split.
  - destruct (Z.lt_trichotomy i j) as [H|[H|H]].
    + left. f_equal. now apply Z.ltb_lt.
    + right. left. now apply Hinj.
    + right. right. f_equal. now apply Z.ltb_lt.
Qed.

Lemma equal_int_iff_equal_attributes_witness :
  (8003569377%Z = 2125550100%Z <->
   mkPhoneNumber (lit "800") (lit "356") (lit "9377")
   = mkPhoneNumber (lit "212") (lit "555") (lit "0100")) /\
  (PhoneNumber_lt (mkPhoneNumber (lit "800") (lit "356") (lit "9377"))
                  (mkPhoneNumber (lit "212") (lit "555") (lit "0100"))
   = Ok false /\
   PhoneNumber_lt (mkPhoneNumber (lit "212") (lit "555") (lit "0100"))
                  (mkPhoneNumber (lit "800") (lit "356") (lit "9377"))
   = Ok false <->
   mkPhoneNumber (lit "800") (lit "356") (lit "9377")
   = mkPhoneNumber (lit "212") (lit "555") (lit "0100")) /\
  (PhoneNumber_lt (mkPhoneNumber (lit "800") (lit "356") (lit "9377"))
                  (mkPhoneNumber (lit "212") (lit "555") (lit "0100"))
   = Ok true \/
   mkPhoneNumber (lit "800") (lit "356") (lit "9377")
   = mkPhoneNumber (lit "212") (lit "555") (lit "0100") \/
   PhoneNumber_lt (mkPhoneNumber (lit "212") (lit "555") (lit "0100"))
                  (mkPhoneNumber (lit "800") (lit "356") (lit "9377"))
   = Ok true).
Proof.
  apply (equal_int_iff_equal_attributes
           (VStr (lit "1-800-FLOWERS")) (VInt (-2125550100)));
    reflexivity.
Defined.

(** X9.  [repr()] of a constructed number that has an integer is
    [PhoneNumber('...')] around its ten digits. *)
Theorem repr_shows_digits (number : value) (p : PhoneNumber) (i : Z) :
  PhoneNumber_init number = Ok p ->
  PhoneNumber_int p = Ok i ->
  PhoneNumber_repr p
  = Ok (lit "PhoneNumber('" ++ area_code p ++ exchange_code p
          ++ line_number p ++ lit "')").
Proof.
  intros H Hi. destruct (constructed_int_text _ _ _ H Hi) as (_ & _ & Hs).
  unfold PhoneNumber_repr. rewrite Hi. cbn [bind]. rewrite Hs.
  now rewrite <- !app_assoc.
Qed.

Lemma repr_shows_digits_witness :
  PhoneNumber_repr (mkPhoneNumber (lit "800") (lit "356") (lit "9377"))
  = Ok (lit "PhoneNumber('8003569377')").
Proof.
  apply (repr_shows_digits (VStr (lit "1-800-FLOWERS"))
           (mkPhoneNumber (lit "800") (lit "356") (lit "9377")) 8003569377);
    reflexivity.
Defined.

(** X10.  Constructed numbers with the same display string have the same
    attributes. *)
Theorem display_injective (n1 n2 : value) (p q : PhoneNumber) :
  PhoneNumber_init n1 = Ok p -> PhoneNumber_init n2 = Ok q ->
  PhoneNumber_str p = PhoneNumber_str q -> p = q.
Proof.
  intros Hp Hq E.
  destruct (init_fields_alnum _ _ Hp) as ((Ha & He & _) & _).
  destruct (init_fields_alnum _ _ Hq) as ((Ha' & He' & _) & _).
  destruct p as [a e l], q as [a' e' l']. cbn in *.
  destruct (length3 _ Ha) as (? & ? & ? & ->).
  destruct (length3 _ He) as (? & ? & ? & ->).
  destruct (length3 _ Ha') as (? & ? & ? & ->).
  destruct (length3 _ He') as (? & ? & ? & ->).
  unfold PhoneNumber_str in E. cbn in E. congruence.
Qed.

Lemma display_injective_witness :
  mkPhoneNumber (lit "800") (lit "356") (lit "9377")
  = mkPhoneNumber (lit "800") (lit "356") (lit "9377").
Proof.
  apply (display_injective (VStr (lit "1-800-FLOWERS")) (VInt 8003569377));
    reflexivity.
Defined.

Lemma invalid_codes_end_in_11 (code : str) :
  In code invalid_codes -> last_two code = lit "11".
Proof.
  intros H. cbn in H.
  repeat match type of H with
  | _ \/ _ => destruct H as [H|H]
  end; try contradiction; subst; reflexivity.
Qed.

Lemma digit_11_in_invalid_codes (c : char) :
  is_digit c = true -> In (c :: lit "11") invalid_codes.
Proof.
  intros H.
  destruct (digit_cases c H) as [->|[->|[->|[->|[->|[->|[->|[->|[->| ->]]]]]]]]];
    cbn; tauto.
Qed.

(** X11.  On codes of three characters whose area code starts with a digit,
    the list of reserved codes adds one rule only: the number is refused
    exactly when a code starts with 0 or 1 or a code ends in 11. *)
Theorem refused_iff_leading_01_or_ending_11 (area exchange line : str) :
  length area = 3%nat -> length exchange = 3%nat ->
  (exists c rest, area = c :: rest /\ is_digit c = true) ->
  (validate (mkPhoneNumber area exchange line) = Raise ValueError_code <->
   starts_with_0_or_1 area \/ starts_with_0_or_1 exchange \/
   last_two area = lit "11" \/ last_two exchange = lit "11").
Proof.
  intros Ha He (c & rest & Ea & Hc).
  assert (Hiff : rejected_codes area exchange <->
                 starts_with_0_or_1 area \/ starts_with_0_or_1 exchange \/
                 last_two area = lit "11" \/ last_two exchange = lit "11").
  { unfold rejected_codes. split.
    - intros [H|[H|[H|[H|H]]]].
      + now left.
      + now right; left.
      + right; right; left. now apply invalid_codes_end_in_11.
      + right; right; right. now apply invalid_codes_end_in_11.
      + now right; right; right.
    - intros [H|[H|[H|H]]].
      + now left.
      + now right; left.
      + right; right; left.
        destruct (length3 _ Ha) as (a0 & a1 & a2 & ->).
        injection Ea as -> _. unfold last_two in H. cbn in H.
        change (lit "11") with [49; 49] in H. injection H as -> ->.
        now apply digit_11_in_invalid_codes.
      + now do 4 right. }
  destruct (validate_spec area exchange line Ha He) as [[Hr Hv]|[Hn Hv]];
    rewrite Hv; split; intros H.
  - now apply Hiff.
  - reflexivity.
  - discriminate.
  - exfalso. now apply Hn, Hiff.
Qed.

Lemma refused_iff_leading_01_or_ending_11_witness :
  validate (mkPhoneNumber (lit "411") (lit "555") (lit "0100"))
  = Raise ValueError_code <->
  starts_with_0_or_1 (lit "411") \/ starts_with_0_or_1 (lit "555") \/
  last_two (lit "411") = lit "11" \/ last_two (lit "555") = lit "11".
Proof.
  apply (refused_iff_leading_01_or_ending_11 (lit "411") (lit "555")
           (lit "0100")); try reflexivity.
  exists (chr "4"), (lit "11"). split; reflexivity.
Defined.

(** ** read_numbers: which entries, in which order *)

Lemma read_line_Ok (tup_list t : list entry) (line : str) :
  read_line tup_list line = Ok t -> t = tup_list ++ line_entry line.
Proof.
  unfold read_line, line_entry.
  destruct (split TAB (strip line)) as [|name [|number [|x fs]]];
    try discriminate.
  destruct (PhoneNumber_init (VStr number)) as [p|e].
  - now intros [= <-].
  - destruct (class_of e); try discriminate; intros [= <-];
      now rewrite app_nil_r.
Qed.

Lemma for_lines_Ok (lines : list str) (tup_list t : list entry) :
  for_lines lines tup_list = Ok t ->
  t = tup_list ++ flat_map line_entry lines.
Proof.
  revert tup_list. induction lines as [|line rest IH]; intros tup_list H;
    cbn [for_lines flat_map] in *.
  - injection H as <-. now rewrite app_nil_r.
  - apply bind_Ok in H. destruct H as (t1 & H1 & H2).
    apply read_line_Ok in H1. apply IH in H2. subst. now rewrite app_assoc.
Qed.

Lemma for_lines_app (l1 l2 : list str) (tup_list : list entry) :
  for_lines (l1 ++ l2) tup_list
  = (t <- for_lines l1 tup_list ;; for_lines l2 t).
Proof.
  revert tup_list. induction l1 as [|line l1 IH]; intros tup_list;
    cbn [app for_lines bind]; [reflexivity|].
  destruct (read_line tup_list line); cbn [bind]; [apply IH | reflexivity].
Qed.

Lemma line_entry_length (line : str) : (length (line_entry line) <= 1)%nat.
Proof.
  unfold line_entry.
  destruct (split TAB (strip line)) as [|name [|number [|x fs]]];
    cbn [length]; try lia.
  destruct (PhoneNumber_init (VStr number)); cbn [length]; lia.
Qed.

Lemma flat_map_line_entry_length (lines : list str) :
  (length (flat_map line_entry lines) <= length lines)%nat.
Proof.
  induction lines as [|line rest IH]; cbn [flat_map length]; [lia|].
  rewrite length_app. pose proof (line_entry_length line). lia.
Qed.

Lemma read_numbers_Ok (lines : list str) (l : list entry) :
  read_numbers lines = Ok l ->
  for_lines lines [] = Ok (flat_map line_entry lines) /\
  list_sort (flat_map line_entry lines) = Ok l.
Proof.
  intros H. unfold read_numbers in H. apply bind_Ok in H.
  destruct H as (t & Ht & Hs). pose proof (for_lines_Ok _ _ _ Ht) as E.
  cbn [app] in E. subst t. now split.
Qed.

(** X12.  The list that [read_numbers] returns holds, each once, the
    entries of the lines whose number the constructor accepts, the name
    being the first field of the line; it has no more entries than there
    are lines. *)
Theorem read_numbers_entries (lines : list str) (l : list entry) :
  read_numbers lines = Ok l ->
  Permutation (flat_map line_entry lines) l /\
  (length l <= length lines)%nat.
Proof.
  intros H. destruct (read_numbers_Ok _ _ H) as (_ & Hs).
  assert (P : Permutation (flat_map line_entry lines) l).
  { rewrite <- (sort_from_Permutation _ [] l Hs). now rewrite app_nil_r. }
  split; [assumption|].
  rewrite <- (Permutation_length P). apply flat_map_line_entry_length.
Qed.

Lemma read_numbers_entries_witness :
  Permutation
    (flat_map line_entry
       [ lit "Alice" ++ [TAB] ++ lit "212-555-0100" ++ [10];
         lit "Eve" ++ [TAB] ++ lit "123-456-7890" ++ [10];
         lit "Bob" ++ [TAB] ++ lit "(202) 555-0199" ])
    [ (lit "Bob", mkPhoneNumber (lit "202") (lit "555") (lit "0199"));
      (lit "Alice", mkPhoneNumber (lit "212") (lit "555") (lit "0100")) ] /\
  (2 <= 3)%nat.
Proof.
  apply (read_numbers_entries
           [ lit "Alice" ++ [TAB] ++ lit "212-555-0100" ++ [10];
             lit "Eve" ++ [TAB] ++ lit "123-456-7890" ++ [10];
             lit "Bob" ++ [TAB] ++ lit "(202) 555-0199" ]).
  reflexivity.
Defined.

(** X13.  A line of two fields whose number the constructor refuses is
    skipped: [read_numbers] has the same outcome without it. *)
Theorem refused_line_skipped
  (l1 l2 : list str) (line name number : str) (e : exn) :
  split TAB (strip line) = [name; number] ->
  PhoneNumber_init (VStr number) = Raise e ->
  read_numbers (l1 ++ line :: l2) = read_numbers (l1 ++ l2).
Proof.
  intros Hsplit Hinit. unfold read_numbers. f_equal.
  rewrite !for_lines_app. destruct (for_lines l1 []) as [t|]; cbn [bind];
    [|reflexivity].
  cbn [for_lines].
  assert (Hr : read_line t line = Ok t).
  { unfold read_line. rewrite Hsplit, Hinit.
    destruct (init_raises _ _ Hinit) as [->|[->| ->]]; reflexivity. }
  now rewrite Hr.
Qed.

Lemma refused_line_skipped_witness :
  read_numbers ([lit "Alice" ++ [TAB] ++ lit "212-555-0100" ++ [10]]
                ++ (lit "Eve" ++ [TAB] ++ lit "123-456-7890" ++ [10])
                :: [lit "Bob" ++ [TAB] ++ lit "(202) 555-0199"])
  = read_numbers ([lit "Alice" ++ [TAB] ++ lit "212-555-0100" ++ [10]]
                  ++ [lit "Bob" ++ [TAB] ++ lit "(202) 555-0199"]).
Proof.
  apply (refused_line_skipped _ _ _ (lit "Eve") (lit "123-456-7890")
           ValueError_code); reflexivity.
Defined.

(** *** Equal integers keep the order of the lines *)

Lemma int_le_trans (a b c : entry) : int_le a b -> int_le b c -> int_le a c.
Proof.
  intros (i & j & Hi & Hj & Hij) (j' & k & Hj' & Hk & Hjk).
  exists i, k. repeat split; try assumption.
  rewrite Hj in Hj'. injection Hj' as <-. lia.
Qed.

Lemma with_int_app (k : Z) (l1 l2 : list entry) :
  with_int k (l1 ++ l2) = with_int k l1 ++ with_int k l2.
Proof. apply filter_app. Qed.

Lemma with_int_above (k : Z) (x : entry) (l : list entry) :
  PhoneNumber_int (snd x) = Ok k ->
  Forall (fun y => exists j, PhoneNumber_int (snd y) = Ok j /\ (k < j)%Z) l ->
  with_int k l = [].
Proof.
  intros Hx. induction 1 as [|y l (j & Hj & Hkj) _ IH]; [reflexivity|].
  unfold with_int in *. cbn [filter]. rewrite Hj.
  destruct (Z.eqb_spec j k); [lia | exact IH].
Qed.

Lemma insert_with_int (k : Z) (x : entry) (sorted r : list entry) :
  Sorted int_le sorted -> insert x sorted = Ok r ->
  with_int k r = with_int k (sorted ++ [x]).
Proof.
  intros Hs. revert r. induction sorted as [|y rest IH]; intros r Hins;
    cbn [insert] in Hins.
  - now injection Hins as <-.
  - destruct (PhoneNumber_lt (snd x) (snd y)) as [[|]|] eqn:E;
      cbn [bind] in Hins; try discriminate.
    + injection Hins as <-.
      change (x :: y :: rest) with ([x] ++ (y :: rest)).
      rewrite !with_int_app.
      destruct (with_int k [x]) as [|x' t] eqn:Ex;
        [now rewrite app_nil_r|].
      assert (Hk : PhoneNumber_int (snd x) = Ok k).
      { unfold with_int in Ex. cbn [filter] in Ex.
        destruct (PhoneNumber_int (snd x)) as [i|]; [|discriminate].
        destruct (Z.eqb_spec i k); [congruence | discriminate]. }
      rewrite (with_int_above k x (y :: rest) Hk); [now rewrite app_nil_r|].
      apply Sorted_StronglySorted in Hs; [|exact int_le_trans].
      unfold PhoneNumber_lt in E. rewrite Hk in E. cbn [bind] in E.
      destruct (PhoneNumber_int (snd y)) as [j|] eqn:Hj; [|discriminate].
      cbn [bind] in E. injection E as E. apply Z.ltb_lt in E.
      inversion Hs as [|? ? _ Hall]; subst. constructor.
      * exists j. now split.
      * eapply Forall_impl; [|exact Hall].
        intros z (j1 & j2 & H1 & H2 & Hle). exists j2. split; [assumption|].
        rewrite Hj in H1. injection H1 as <-. lia.
    + destruct (insert x rest) as [r'|] eqn:E'; cbn [bind] in Hins;
        [|discriminate].
      injection Hins as <-. inversion Hs; subst.
      change (y :: r') with ([y] ++ r').
      change ((y :: rest) ++ [x]) with ([y] ++ (rest ++ [x])).
      rewrite (with_int_app k [y] r'), (with_int_app k [y] (rest ++ [x])).
      f_equal. apply IH; [assumption | reflexivity].
Qed.

Lemma sort_from_with_int (k : Z) (l sorted r : list entry) :
  Sorted int_le sorted -> sort_from l sorted = Ok r ->
  with_int k r = with_int k (sorted ++ l).
Proof.
  revert sorted. induction l as [|x l IH]; intros sorted Hs H;
    cbn [sort_from] in H.
  - injection H as <-. now rewrite app_nil_r.
  - apply bind_Ok in H. destruct H as (s & Hins & H).
    rewrite (IH s (insert_Sorted x sorted s Hins Hs) H).
    rewrite with_int_app, (insert_with_int k x sorted s Hs Hins).
    rewrite <- with_int_app, <- app_assoc. reflexivity.
Qed.

(** X14.  The sort is stable: in the list returned, the entries whose
    number has a given integer stand in the order of their lines. *)
Theorem equal_numbers_keep_line_order
  (lines : list str) (l : list entry) (k : Z) :
  read_numbers lines = Ok l ->
  with_int k l = with_int k (flat_map line_entry lines).
Proof.
  intros H. destruct (read_numbers_Ok _ _ H) as (_ & Hs).
  apply (sort_from_with_int k _ [] l); [constructor | exact Hs].
Qed.

Lemma equal_numbers_keep_line_order_witness :
  with_int 2125550100
    [ (lit "Bob", mkPhoneNumber (lit "202") (lit "555") (lit "0199"));
      (lit "Zoe", mkPhoneNumber (lit "212") (lit "555") (lit "0100"));
      (lit "Alice", mkPhoneNumber (lit "212") (lit "555") (lit "0100")) ]
  = with_int 2125550100
      (flat_map line_entry
         [ lit "Zoe" ++ [TAB] ++ lit "212-555-0100" ++ [10];
           lit "Bob" ++ [TAB] ++ lit "(202) 555-0199" ++ [10];
           lit "Alice" ++ [TAB] ++ lit "1 (212) 555 0100" ]).
Proof.
  apply (equal_numbers_keep_line_order
           [ lit "Zoe" ++ [TAB] ++ lit "212-555-0100" ++ [10];
             lit "Bob" ++ [TAB] ++ lit "(202) 555-0199" ++ [10];
             lit "Alice" ++ [TAB] ++ lit "1 (212) 555 0100" ]).
  reflexivity.
Defined.

(** *** When the sort raises *)

Lemma int_Ok_or_raise (x : entry) :
  has_int x \/ PhoneNumber_int (snd x) = Raise ValueError_int.
Proof.
  unfold has_int, PhoneNumber_int, py_int.
  destruct (area_code (snd x) ++ exchange_code (snd x) ++ line_number (snd x));
    [now right|].
  destruct (int_digits _ _); [left; eauto | now right].
Qed.

Lemma not_has_int (x : entry) :
  PhoneNumber_int (snd x) = Raise ValueError_int -> ~ has_int x.
Proof. intros H [i Hi]. congruence. Qed.

Lemma insert_raises_item (x y : entry) (rest : list entry) :
  PhoneNumber_int (snd x) = Raise ValueError_int ->
  insert x (y :: rest) = Raise ValueError_int.
Proof. intros H. cbn [insert]. unfold PhoneNumber_lt. now rewrite H. Qed.

Lemma insert_raises_head (x y : entry) (rest : list entry) :
  PhoneNumber_int (snd y) = Raise ValueError_int ->
  insert x (y :: rest) = Raise ValueError_int.
Proof.
  intros H. destruct (int_Ok_or_raise x) as [[i Hi]|Hx];
    [|now apply insert_raises_item].
  cbn [insert]. unfold PhoneNumber_lt. now rewrite Hi, H.
Qed.

Lemma sort_from_raises (l sorted : list entry) :
  sorted <> [] -> Forall has_int sorted ->
  Exists (fun e => PhoneNumber_int (snd e) = Raise ValueError_int) l ->
  sort_from l sorted = Raise ValueError_int.
Proof.
  intros Hne Hs Hex. revert sorted Hne Hs.
  induction l as [|x l IH]; intros sorted Hne Hs; [inversion Hex|].
  cbn [sort_from].
  destruct (int_Ok_or_raise x) as [Hx|Hx].
  - destruct (insert_total x sorted Hx Hs) as [s Hins]. rewrite Hins.
    cbn [bind]. apply IH.
    + inversion Hex as [? ? Hbad|]; subst; [|assumption].
      now apply not_has_int in Hbad.
    + intros ->. apply insert_Permutation in Hins.
      now apply Permutation_sym, Permutation_nil in Hins.
    + eapply Permutation_Forall; [exact (insert_Permutation x sorted s Hins)|].
      now constructor.
  - destruct sorted as [|y rest]; [contradiction|].
    now rewrite insert_raises_item.
Qed.

Lemma list_sort_raises (t : list entry) :
  (2 <= length t)%nat ->
  Exists (fun e => PhoneNumber_int (snd e) = Raise ValueError_int) t ->
  list_sort t = Raise ValueError_int.
Proof.
  intros Hlen Hex. destruct t as [|x1 [|x2 rest]]; cbn in Hlen; try lia.
  unfold list_sort.
  change (sort_from (x1 :: x2 :: rest) [])
    with (sort_from (x2 :: rest) [x1]).
  destruct (int_Ok_or_raise x1) as [H1|H1].
  - inversion Hex as [? ? Hbad|? ? Hbad]; subst;
      [now apply not_has_int in Hbad|].
    apply (sort_from_raises (x2 :: rest) [x1]);
      [discriminate | now constructor | assumption].
  - cbn [sort_from]. now rewrite insert_raises_head.
Qed.

Lemma all_ints_or_one_raises (t : list entry) :
  Forall has_int t \/
  Exists (fun e => PhoneNumber_int (snd e) = Raise ValueError_int) t.
Proof.
  induction t as [|x t [IH|IH]].
  - left. constructor.
  - destruct (int_Ok_or_raise x) as [Hx|Hx];
      [left; now constructor | right; now constructor].
  - right. now constructor.
Qed.

Lemma for_lines_two_fields (lines : list str) (tup_list : list entry) :
  Forall (fun line => length (split TAB (strip line)) = 2%nat) lines ->
  for_lines lines tup_list = Ok (tup_list ++ flat_map line_entry lines).
Proof.
  intros H. revert tup_list. induction H as [|line rest Hl _ IH];
    intros tup_list; cbn [for_lines flat_map].
  - now rewrite app_nil_r.
  - destruct (read_line_good tup_list line Hl) as (name & number & _ & Hc).
    assert (exists t, read_line tup_list line = Ok t) as [t Ht]
      by (destruct Hc as [(p & _ & ->)|[_ ->]]; eauto).
    rewrite Ht. cbn [bind]. rewrite IH.
    apply read_line_Ok in Ht. subst t. now rewrite app_assoc.
Qed.

(** X15.  When every line has two fields, [read_numbers] raises the
    [ValueError] of [int()] exactly when at least two numbers are accepted
    and one of them has no integer; no other error is raised by the sort. *)
Theorem sort_raises_iff (lines : list str) :
  Forall (fun line => length (split TAB (strip line)) = 2%nat) lines ->
  (read_numbers lines = Raise ValueError_int <->
   (2 <= length (flat_map line_entry lines))%nat /\
   Exists (fun e => PhoneNumber_int (snd e) = Raise ValueError_int)
          (flat_map line_entry lines)) /\
  (forall e, read_numbers lines = Raise e -> e = ValueError_int).
Proof.
  intros Hl. unfold read_numbers.
  rewrite (for_lines_two_fields lines [] Hl). cbn [bind app].
  set (t := flat_map line_entry lines).
  assert (Hcases :
            (exists l, list_sort t = Ok l) \/
            ((2 <= length t)%nat /\
             Exists (fun e => PhoneNumber_int (snd e) = Raise ValueError_int) t)).
  { destruct (all_ints_or_one_raises t) as [Hall|Hbad]; [left|].
    - apply sort_from_total; [assumption | constructor].
    - destruct t as [|x1 [|x2 rest]].
      + inversion Hbad.
      + left. now exists [x1].
      + right. split; [cbn; lia | assumption]. }
  split; [split|].
  - intros Hr. destruct Hcases as [[l Hok]|H]; [congruence | assumption].
  - intros [Hlen Hex]. now apply list_sort_raises.
  - intros e Hr. destruct Hcases as [[l Hok]|[Hlen Hex]]; [congruence|].
    rewrite (list_sort_raises t Hlen Hex) in Hr. congruence.
Qed.

Lemma sort_raises_iff_witness :
  (read_numbers [ lit "Alice" ++ [TAB] ++ lit "212-555-0100" ++ [10];
                  lit "Bob" ++ [TAB] ++ lit "(202) 555-abcd" ]
   = Raise ValueError_int <->
   le 2 (length
           (flat_map line_entry
              [ lit "Alice" ++ [TAB] ++ lit "212-555-0100" ++ [10];
                lit "Bob" ++ [TAB] ++ lit "(202) 555-abcd" ])) /\
   Exists (fun e => PhoneNumber_int (snd e) = Raise ValueError_int)
          (flat_map line_entry
             [ lit "Alice" ++ [TAB] ++ lit "212-555-0100" ++ [10];
               lit "Bob" ++ [TAB] ++ lit "(202) 555-abcd" ])) /\
  (forall e,
     read_numbers [ lit "Alice" ++ [TAB] ++ lit "212-555-0100" ++ [10];
                    lit "Bob" ++ [TAB] ++ lit "(202) 555-abcd" ]
     = Raise e -> e = ValueError_int).
Proof.
  apply (sort_raises_iff
           [ lit "Alice" ++ [TAB] ++ lit "212-555-0100" ++ [10];
             lit "Bob" ++ [TAB] ++ lit "(202) 555-abcd" ]).
  repeat constructor.
Defined.

(** X16.  On lines of two fields whose numbers have no lower-case letter,
    [read_numbers] returns: the accepted entries, each once, in ascending
    order of their integers. *)
Theorem plain_lines_sorted_entries (lines : list str) :
  Forall plain_line lines ->
  exists l,
    read_numbers lines = Ok l /\
    Permutation (flat_map line_entry lines) l /\
    Sorted int_le l.
Proof.
  intros H. destruct (read_numbers_returns lines H) as [l Hl].
  exists l. split; [assumption|].
  destruct (read_numbers_Ok _ _ Hl) as (_ & Hs). split.
  - rewrite <- (sort_from_Permutation _ [] l Hs). now rewrite app_nil_r.
  - apply (sort_from_Sorted _ [] l Hs). constructor.
Qed.

Lemma plain_lines_sorted_entries_witness :
  exists l,
    read_numbers [ lit "Alice" ++ [TAB] ++ lit "212-555-0100" ++ [10];
                   lit "Eve" ++ [TAB] ++ lit "123-456-7890" ++ [10];
                   lit "Bob" ++ [TAB] ++ lit "1-800-FLOWERS" ]
    = Ok l /\
    Permutation
      (flat_map line_entry
         [ lit "Alice" ++ [TAB] ++ lit "212-555-0100" ++ [10];
           lit "Eve" ++ [TAB] ++ lit "123-456-7890" ++ [10];
           lit "Bob" ++ [TAB] ++ lit "1-800-FLOWERS" ]) l /\
    Sorted int_le l.
Proof.
  apply (plain_lines_sorted_entries
           [ lit "Alice" ++ [TAB] ++ lit "212-555-0100" ++ [10];
             lit "Eve" ++ [TAB] ++ lit "123-456-7890" ++ [10];
             lit "Bob" ++ [TAB] ++ lit "1-800-FLOWERS" ]).
  repeat constructor;
    eexists; eexists; (split; [reflexivity | repeat constructor]).
Defined.

(** ** main: the printed lines *)

Lemma split_no_sep (sep : char) (s : str) :
  ~ In sep s -> split sep s = [s].
Proof.
  induction s as [|c s IH]; intros H; cbn [split]; [reflexivity|].
  destruct (char_eqb_spec c sep) as [->|Hne].
  - exfalso. apply H. now left.
  - rewrite IH; [reflexivity|]. intros Hin. apply H. now right.
Qed.

Lemma split_app_sep (sep : char) (a b : str) :
  ~ In sep a -> split sep (a ++ sep :: b) = a :: split sep b.
Proof.
  induction a as [|c a IH]; intros H; cbn [app split].
  - destruct (char_eqb_spec sep sep); [reflexivity | contradiction].
  - destruct (char_eqb_spec c sep) as [->|Hne].
    + exfalso. apply H. now left.
    + rewrite IH; [reflexivity|]. intros Hin. apply H. now right.
Qed.

Lemma split_fields_no_sep (sep : char) (s f : str) :
  In f (split sep s) -> ~ In sep f.
Proof.
  revert f. induction s as [|c s IH]; intros f Hin; cbn [split] in Hin.
  - destruct Hin as [<-|[]]. intros [].
  - destruct (char_eqb_spec c sep) as [->|Hne].
    + destruct Hin as [<-|Hin]; [intros [] | now apply IH].
    + destruct (split sep s) as [|g gs] eqn:E.
      * destruct Hin as [<-|[]]. intros [H|[]]. now apply Hne.
      * destruct Hin as [<-|Hin].
        -- intros [H|H]; [now apply Hne|].
           apply (IH g); [now left | assumption].
        -- apply IH. now right.
Qed.

Lemma line_entry_In (line : str) (e : entry) :
  In e (line_entry line) ->
  ~ In TAB (fst e) /\
  exists number, PhoneNumber_init (VStr number) = Ok (snd e).
Proof.
  unfold line_entry.
  destruct (split TAB (strip line)) as [|name [|number [|x fs]]] eqn:E;
    try contradiction.
  destruct (PhoneNumber_init (VStr number)) as [p|] eqn:Hp; [|contradiction].
  intros [<-|[]]. cbn [fst snd]. split; [|now exists number].
  apply (split_fields_no_sep TAB (strip line)). rewrite E. now left.
Qed.

Lemma display_no_tab (number : value) (p : PhoneNumber) :
  PhoneNumber_init number = Ok p -> ~ In TAB (PhoneNumber_str p).
Proof.
  intros H Hin.
  destruct (init_fields_alnum _ _ H) as (_ & Hf).
  apply Forall_app in Hf. destruct Hf as [Fa Hf].
  apply Forall_app in Hf. destruct Hf as [Fe Fl].
  assert (Hno : forall s, Forall (fun c => is_field_char c = true) s ->
                          ~ In TAB s).
  { intros s Hs Hin'. rewrite Forall_forall in Hs.
    specialize (Hs TAB Hin'). discriminate Hs. }
  unfold PhoneNumber_str in Hin.
  repeat (apply in_app_or in Hin; destruct Hin as [Hin|Hin]);
    try (apply Hno in Hin; [contradiction | assumption]);
    unfold TAB in Hin; cbn in Hin;
    repeat (destruct Hin as [Hin|Hin]; try discriminate Hin);
    contradiction.
Qed.

Lemma display_length (number : value) (p : PhoneNumber) :
  PhoneNumber_init number = Ok p -> length (PhoneNumber_str p) = 14%nat.
Proof.
  intros H. destruct (init_fields_alnum _ _ H) as ((Ha & He & Hl) & _).
  unfold PhoneNumber_str. rewrite !length_app, Ha, He, Hl. reflexivity.
Qed.

Lemma printed_line_parses (e : entry) (number : str) :
  ~ In TAB (fst e) ->
  PhoneNumber_init (VStr number) = Ok (snd e) ->
  split TAB (PhoneNumber_str (snd e) ++ [TAB] ++ fst e)
  = [PhoneNumber_str (snd e); fst e].
Proof.
  intros Hname Hp. change ([TAB] ++ fst e) with (TAB :: fst e).
  rewrite split_app_sep by now apply (display_no_tab (VStr number)).
  now rewrite split_no_sep.
Qed.

(** X17.  Each string that [main] prints is the display string of an entry
    of [read_numbers], fourteen characters long, then a tab, then the name;
    split at tabs it gives back exactly these two fields, the entries
    being printed in the order of the list. *)
Theorem printed_lines_parse_back (lines out : list str) :
  main lines = Ok out ->
  exists l,
    read_numbers lines = Ok l /\
    Forall2 (fun (e : entry) (o : str) =>
               o = PhoneNumber_str (snd e) ++ [TAB] ++ fst e /\
               length (PhoneNumber_str (snd e)) = 14%nat /\
               split TAB o = [PhoneNumber_str (snd e); fst e]) l out.
Proof.
  intros H. unfold main in H. apply bind_Ok in H.
  destruct H as (l & Hl & [= <-]). exists l. split; [assumption|].
  destruct (read_numbers_Ok _ _ Hl) as (_ & Hs).
  assert (P : Permutation (flat_map line_entry lines) l).
  { rewrite <- (sort_from_Permutation _ [] l Hs). now rewrite app_nil_r. }
  assert (Hall : Forall (fun e : entry =>
                           ~ In TAB (fst e) /\
                           exists number,
                             PhoneNumber_init (VStr number) = Ok (snd e)) l).
  { eapply Permutation_Forall; [exact P|].
    apply Forall_forall. intros e Hin. apply in_flat_map in Hin.
    destruct Hin as (line & _ & Hin). now apply (line_entry_In line). }
  clear - Hall. induction Hall as [|e l (Hname & number & Hp) _ IH];
    [constructor|].
  rewrite map_cons. constructor; [|exact IH].
  split; [reflexivity|]. split.
  - exact (display_length _ _ Hp).
  - exact (printed_line_parses e number Hname Hp).
Qed.

Lemma printed_lines_parse_back_witness :
  exists l,
    read_numbers [ lit "Alice" ++ [TAB] ++ lit "212-555-0100" ++ [10];
                   lit "Bob" ++ [TAB] ++ lit "(202) 555-0199" ++ [10] ]
    = Ok l /\
    Forall2 (fun (e : entry) (o : str) =>
               o = PhoneNumber_str (snd e) ++ [TAB] ++ fst e /\
               length (PhoneNumber_str (snd e)) = 14%nat /\
               split TAB o = [PhoneNumber_str (snd e); fst e]) l
            [ lit "(202) 555-0199" ++ [TAB] ++ lit "Bob";
              lit "(212) 555-0100" ++ [TAB] ++ lit "Alice" ].
Proof.
  apply (printed_lines_parse_back
           [ lit "Alice" ++ [TAB] ++ lit "212-555-0100" ++ [10];
             lit "Bob" ++ [TAB] ++ lit "(202) 555-0199" ++ [10] ]).
  reflexivity.
Defined.

(** ** Capital letters and the digits of their keys *)

Lemma translate_char_idem (c : char) :
  translate_char (translate_char c) = translate_char c.
Proof.
  destruct (is_upper c) eqn:Hu.
  - destruct (dict_get_upper c Hu) as (d & Hd & Hlo & Hhi).
    assert (E : translate_char c = d)
      by (unfold translate_char; now rewrite Hd).
    rewrite E. apply translate_char_digit.
    unfold is_digit. apply andb_true_iff. split; apply N.leb_le; lia.
  - assert (E : translate_char c = c)
      by (unfold translate_char; now rewrite (dict_get_not_upper c Hu)).
    now rewrite !E.
Qed.

Lemma translate_char_is_alnum (c : char) :
  is_alnum (translate_char c) = is_alnum c.
Proof.
  destruct (is_upper c) eqn:Hu.
  - destruct (dict_get_upper c Hu) as (d & Hd & Hlo & Hhi).
    unfold translate_char. rewrite Hd. unfold is_alnum. rewrite Hu.
    rewrite orb_true_r.
    assert (Hdig : is_digit d = true)
      by (unfold is_digit; apply andb_true_iff; split; apply N.leb_le; lia).
    now rewrite Hdig.
  - unfold translate_char. now rewrite (dict_get_not_upper c Hu).
Qed.

Lemma translate_char_one (c : char) :
  char_eqb (translate_char c) (chr "1") = char_eqb c (chr "1").
Proof.
  destruct (is_upper c) eqn:Hu.
  - destruct (dict_get_upper c Hu) as (d & Hd & Hlo & Hhi).
    unfold translate_char. rewrite Hd. unfold char_eqb.
    change (chr "1") with 49. to_bounds.
    destruct (N.eqb_spec d 49), (N.eqb_spec c 49); try reflexivity; lia.
  - unfold translate_char. now rewrite (dict_get_not_upper c Hu).
Qed.

Lemma clean_map_translate (s : str) :
  re_sub_non_alnum (map translate_char s)
  = map translate_char (re_sub_non_alnum s).
Proof.
  unfold re_sub_non_alnum. induction s as [|c s IH]; [reflexivity|].
  cbn [map filter]. rewrite translate_char_is_alnum.
  destruct (is_alnum c); cbn [map]; now rewrite IH.
Qed.

(** X18.  A capital letter stands for the digit of its key: replacing the
    capitals of a string by these digits does not change the outcome of the
    constructor. *)
Theorem capitals_as_digits (s : str) :
  PhoneNumber_init (VStr (map translate_char s)) = PhoneNumber_init (VStr s).
Proof.
  unfold PhoneNumber_init. cbn [isinstance_str_int negb py_str].
  rewrite clean_map_translate.
  set (ns := re_sub_non_alnum s).
  assert (Hstack : translate (map translate_char ns) = translate ns).
  { rewrite !translate_map, map_map. apply map_ext, translate_char_idem. }
  rewrite Hstack. f_equal.
  unfold decompose. rewrite length_map.
  destruct (length ns =? 10)%nat; [reflexivity|].
  destruct (length ns =? 11)%nat; [|reflexivity].
  destruct ns as [|c ns']; [reflexivity|].
  cbn [map index0 bind]. now rewrite translate_char_one.
Qed.
